(** * Sync API storage: the read path of [DatabaseTransaction]

    A shallow embedding of [syncapi/storage/shared] (package [shared]):
    the snapshot session, the topology translation used by pagination,
    the two state-delta engines and the send-to-device accessor.

    Go values are modelled as follows.
    - [int64] stream positions and depths are [Z].
    - A function returning [(v, err)] returns a pair whose second
      component is [option error]; [None] is Go's [nil] error.  The
      value returned next to a non-nil error is kept, because some
      callers go on using it.
    - A [nil] slice and an empty slice are both the empty list.
    - A Go [map[string]V] is a [gmap string V].  The order in which
      [range] visits a map is not fixed by the language: it is the
      parameter [map_range] below, constrained only to enumerate the
      map's entries.
    - The storage tables are interfaces in Go; here they are records of
      functions.  Within one snapshot a query is a function of its
      arguments. *)

From stdpp Require Import gmap strings list fin_maps.
From Stdlib Require Import ZArith.

Local Open Scope Z_scope.
Local Open Scope string_scope.
Local Open Scope list_scope.

(** ** Errors *)

(** [sql.ErrNoRows] and [sql.ErrTxDone] are sentinel values compared
    with [==]; [fmt.Errorf("prefix: %w", err)] builds a new error that
    wraps [err] and is different from every sentinel. *)
Inductive error : Type :=
  | ErrNoRows
  | ErrTxDone
  | ErrStorage (msg : string)
  | Errorf (prefix : string) (wrapped : error).

#[global] Instance error_eq_dec : EqDecision error.
Proof. solve_decision. Defined.

(** ** [database/sql] transactions *)

Module sql.

(** What the session needs of [*sql.Tx]: whether it was already
    finished, and what the driver answers to a commit or a rollback. *)
Record Tx : Type := mkTx {
  done_ : bool;
  driverCommit : option error;
  driverRollback : option error
}.

Definition finish (tx : Tx) : Tx :=
  {| done_ := true;
     driverCommit := driverCommit tx;
     driverRollback := driverRollback tx |}.

Definition Commit (tx : Tx) : Tx * option error :=
  if done_ tx then (tx, Some ErrTxDone) else (finish tx, driverCommit tx).

Definition Rollback (tx : Tx) : Tx * option error :=
  if done_ tx then (tx, Some ErrTxDone) else (finish tx, driverRollback tx).

End sql.

(** ** Events and filters ([gomatrixserverlib]) *)

Module gomatrixserverlib.

Definition Join : string := "join".
Definition Peek : string := "peek".

(** The fields of a headered event that the read path looks at.
    [Membership] is [content.membership], [PrevMembership] is
    [unsigned.prev_content.membership] and [UnsignedTransactionID] is
    [unsigned.transaction_id]. *)
Record HeaderedEvent : Type := mkEvent {
  EventID : string;
  RoomID : string;
  Type_ : string;
  StateKey : option string;
  Sender : string;
  Membership : string;
  PrevMembership : string;
  UnsignedTransactionID : option string
}.

Definition SetUnsignedTransactionID (tid : string) (ev : HeaderedEvent)
  : HeaderedEvent :=
  {| EventID := EventID ev;
     RoomID := RoomID ev;
     Type_ := Type_ ev;
     StateKey := StateKey ev;
     Sender := Sender ev;
     Membership := Membership ev;
     PrevMembership := PrevMembership ev;
     UnsignedTransactionID := Some tid |}.

Record RoomEventFilter : Type := mkRoomEventFilter {
  Limit : Z;
  Types : list string;
  NotTypes : list string
}.

Record StateFilter : Type := mkStateFilter {
  StateLimit : Z;
  StateTypes : list string;
  StateNotTypes : list string
}.

End gomatrixserverlib.

(** ** [userapi.Device] *)

Module userapi.

Record Device : Type := mkDevice {
  ID : string;
  UserID : string;
  SessionID : Z
}.

End userapi.

(** ** [syncapi/types] *)

Module types.

Definition StreamPosition : Type := Z.

Record TopologyToken : Type := mkTopologyToken {
  Depth : StreamPosition;
  PDUPosition : StreamPosition
}.

(** [types.TopologyToken{}] *)
Definition zeroToken : TopologyToken :=
  {| Depth := 0; PDUPosition := 0 |}.

Record Range : Type := mkRange {
  From : StreamPosition;
  To : StreamPosition;
  Backwards : bool
}.

Record TransactionID : Type := mkTransactionID {
  TxnSessionID : Z;
  TxnID : string
}.

Record StreamEvent : Type := mkStreamEvent {
  HeaderedEvent : gomatrixserverlib.HeaderedEvent;
  StreamPos : StreamPosition;
  TransactionID_ : option TransactionID;
  ExcludeFromSync : bool
}.

Record Peek : Type := mkPeek {
  PeekRoomID : string;
  New : bool;
  Deleted : bool
}.

Record StateDelta : Type := mkStateDelta {
  RoomID : string;
  StateEvents : list gomatrixserverlib.HeaderedEvent;
  Membership : string;
  MembershipPos : StreamPosition;
  NewlyJoined : bool
}.

Record SendToDeviceEvent : Type := mkSendToDeviceEvent {
  SendID : Z;
  SendUserID : string;
  SendDeviceID : string;
  SendContent : string
}.

End types.

#[global] Instance HeaderedEvent_eq_dec : EqDecision gomatrixserverlib.HeaderedEvent.
Proof. solve_decision. Defined.
#[global] Instance TransactionID_eq_dec : EqDecision types.TransactionID.
Proof. solve_decision. Defined.
#[global] Instance StreamEvent_eq_dec : EqDecision types.StreamEvent.
Proof. solve_decision. Defined.
#[global] Instance StateDelta_eq_dec : EqDecision types.StateDelta.
Proof. solve_decision. Defined.

(** ** The storage tables *)

Module tables.

Record Topology : Type := mkTopology {
  SelectEventIDsInRange :
    option sql.Tx -> string ->
    types.StreamPosition -> types.StreamPosition -> types.StreamPosition ->
    Z -> bool -> list string * option error;
  SelectPositionInTopology :
    option sql.Tx -> string ->
    types.StreamPosition * types.StreamPosition * option error;
  SelectMaxPositionInTopology :
    option sql.Tx -> string ->
    types.StreamPosition * types.StreamPosition * option error;
  SelectStreamToTopologicalPosition :
    option sql.Tx -> string -> types.StreamPosition -> bool ->
    types.StreamPosition * option error
}.

Record Events : Type := mkEvents {
  SelectEvents :
    option sql.Tx -> list string ->
    option gomatrixserverlib.RoomEventFilter -> bool ->
    list types.StreamEvent * option error;
  SelectStateInRange :
    option sql.Tx -> types.Range ->
    option gomatrixserverlib.StateFilter -> list string ->
    gmap string (gmap string bool) * gmap string types.StreamEvent
    * option error
}.

Record CurrentRoomState : Type := mkCurrentRoomState {
  SelectCurrentState :
    option sql.Tx -> string ->
    option gomatrixserverlib.StateFilter -> list string ->
    list gomatrixserverlib.HeaderedEvent * option error;
  SelectRoomIDsWithAnyMembership :
    option sql.Tx -> string -> gmap string string * option error
}.

Record Peeks : Type := mkPeeks {
  SelectPeeksInRange :
    option sql.Tx -> string -> string -> types.Range ->
    list types.Peek * option error
}.

Record SendToDevice : Type := mkSendToDevice {
  SelectSendToDeviceMessages :
    option sql.Tx -> string -> string ->
    types.StreamPosition -> types.StreamPosition ->
    types.StreamPosition * list types.SendToDeviceEvent * option error
}.

End tables.

(** ** [Database] and [DatabaseTransaction] *)

(** [fetchStateEvents] is a method of [Database] declared in another
    file of the package; its body is not part of this development and
    it is taken as a field next to the tables. *)
Record Database : Type := mkDatabase {
  OutputEvents : tables.Events;
  Topology : tables.Topology;
  CurrentRoomState : tables.CurrentRoomState;
  Peeks : tables.Peeks;
  SendToDevice : tables.SendToDevice;
  fetchStateEvents :
    option sql.Tx ->
    gmap string (gmap string bool) -> gmap string types.StreamEvent ->
    gmap string (list types.StreamEvent) * option error
}.

Record DatabaseTransaction : Type := mkDatabaseTransaction {
  database :> Database;
  txn : option sql.Tx
}.

Definition withTxn (d : DatabaseTransaction) (tx : sql.Tx)
  : DatabaseTransaction :=
  {| database := database d; txn := Some tx |}.

(** [Commit] and [Rollback] return the session after the call (the
    transaction handle is shared, so finishing it is visible through
    [d]) and the error. *)
Definition Commit (d : DatabaseTransaction)
  : DatabaseTransaction * option error :=
  match txn d with
  | None => (d, None)
  | Some tx => let '(tx', err) := sql.Commit tx in (withTxn d tx', err)
  end.

Definition Rollback (d : DatabaseTransaction)
  : DatabaseTransaction * option error :=
  match txn d with
  | None => (d, None)
  | Some tx => let '(tx', err) := sql.Rollback tx in (withTxn d tx', err)
  end.

(** Modelled from the spec: [Database.StreamEventsToEvents] is declared
    outside this file.  The spec says that transaction IDs are not
    attached by the plain event lookup and are only added when a device
    context is supplied; so with no device the stored event is returned
    as it is, and with a device the transaction ID recorded for the
    stream event, if any, is written to the event's unsigned section. *)
Definition StreamEventsToEvents (device : option userapi.Device)
    (in_ : list types.StreamEvent) : list gomatrixserverlib.HeaderedEvent :=
  map (fun se =>
         match device, types.TransactionID_ se with
         | Some _, Some tid =>
             gomatrixserverlib.SetUnsignedTransactionID
               (types.TxnID tid) (types.HeaderedEvent se)
         | _, _ => types.HeaderedEvent se
         end) in_.

(** Modelled from the spec: [getMembershipFromEvent] is declared outside
    this file.  The spec has the delta engine scan for an event whose
    state key is the user and extract [(membership, prev_membership)];
    membership events are the events of type [m.room.member].  Every
    other event yields the pair of empty strings. *)
Definition getMembershipFromEvent (ev : gomatrixserverlib.HeaderedEvent)
    (userID : string) : string * string :=
  if bool_decide (gomatrixserverlib.Type_ ev = "m.room.member"
                  ∧ gomatrixserverlib.StateKey ev = Some userID)
  then (gomatrixserverlib.Membership ev, gomatrixserverlib.PrevMembership ev)
  else ("", "").

(** ** Event lookup *)

Definition Events (d : DatabaseTransaction) (eventIDs : list string)
  : list gomatrixserverlib.HeaderedEvent * option error :=
  let '(streamEvents, err) :=
    tables.SelectEvents (OutputEvents d) (txn d) eventIDs None false in
  match err with
  | Some e => ([], Some e)
  | None => (StreamEventsToEvents None streamEvents, None)
  end.

(** ** Pagination *)

Definition GetEventsInTopologicalRange (d : DatabaseTransaction)
    (from to : types.TopologyToken) (roomID : string)
    (filter : gomatrixserverlib.RoomEventFilter) (backwardOrdering : bool)
  : list types.StreamEvent * option error :=
  let '(minDepth, maxDepth, maxStreamPosForMaxDepth) :=
    if backwardOrdering
    then (types.Depth to, types.Depth from, types.PDUPosition from)
    else (types.Depth from, types.Depth to, 0) in
  let '(eIDs, err) :=
    tables.SelectEventIDsInRange (Topology d) (txn d) roomID
      minDepth maxDepth maxStreamPosForMaxDepth
      (gomatrixserverlib.Limit filter) (negb backwardOrdering) in
  match err with
  | Some e => ([], Some e)
  | None =>
      tables.SelectEvents (OutputEvents d) (txn d) eIDs (Some filter) true
  end.

Definition StreamToTopologicalPosition (d : DatabaseTransaction)
    (roomID : string) (streamPos : types.StreamPosition)
    (backwardOrdering : bool) : types.TopologyToken * option error :=
  let '(topoPos, err) :=
    tables.SelectStreamToTopologicalPosition (Topology d) (txn d)
      roomID streamPos backwardOrdering in
  if bool_decide (err = Some ErrNoRows) && backwardOrdering then
    ({| types.Depth := 0; types.PDUPosition := streamPos |}, None)
  else if bool_decide (err = Some ErrNoRows) && negb backwardOrdering then
    let '(topoPos', streamPos', err') :=
      tables.SelectMaxPositionInTopology (Topology d) (txn d) roomID in
    match err' with
    | Some e =>
        (types.zeroToken,
         Some (Errorf "d.Topology.SelectMaxPositionInTopology" e))
    | None =>
        ({| types.Depth := topoPos'; types.PDUPosition := streamPos' |}, None)
    end
  else
    match err with
    | Some e =>
        (types.zeroToken,
         Some (Errorf "d.Topology.SelectStreamToTopologicalPosition" e))
    | None =>
        ({| types.Depth := topoPos; types.PDUPosition := streamPos |}, None)
    end.

Section BackwardTopology.

(** [TopologyToken.Decrement] belongs to [syncapi/types], outside this
    package; it is a parameter here. *)
Variable Decrement : types.TopologyToken -> types.TopologyToken.

Definition GetBackwardTopologyPos (d : DatabaseTransaction)
    (events : list types.StreamEvent) : types.TopologyToken * option error :=
  match events with
  | [] => (types.zeroToken, None)
  | ev0 :: _ =>
      let '(pos, spos, err) :=
        tables.SelectPositionInTopology (Topology d) (txn d)
          (gomatrixserverlib.EventID (types.HeaderedEvent ev0)) in
      match err with
      | Some e => (types.zeroToken, Some e)
      | None =>
          (Decrement {| types.Depth := pos; types.PDUPosition := spos |},
           None)
      end
  end.

End BackwardTopology.

(** ** Send-to-device *)

Definition SendToDeviceUpdatesForSync (d : DatabaseTransaction)
    (userID deviceID : string) (from to : types.StreamPosition)
  : types.StreamPosition * list types.SendToDeviceEvent * option error :=
  let '(lastPos, events, err) :=
    tables.SelectSendToDeviceMessages (SendToDevice d) (txn d)
      userID deviceID from to in
  match err with
  | Some e =>
      (from, [], Some (Errorf "d.SendToDevice.SelectSendToDeviceMessages" e))
  | None =>
      if bool_decide (length events = 0%nat) then (to, [], None)
      else (lastPos, events, None)
  end.

(** ** The delta engine *)

(** What the three-valued Go results look like when a call gives up. *)
Definition noDeltas : list types.StateDelta * list string * option error :=
  ([], [], None).

Definition failWith (err : error)
  : list types.StateDelta * list string * option error :=
  ([], [], Some err).

(** [m[k]] on a Go map yields the zero value of the element type when
    the key is absent. *)
Definition stateAt (state : gmap string (list types.StreamEvent))
    (roomID : string) : list types.StreamEvent :=
  default [] (state !! roomID).

Definition flagAt (flags : gmap string bool) (roomID : string) : bool :=
  default false (flags !! roomID).

Definition currentStateStreamEventsForRoom (d : DatabaseTransaction)
    (roomID : string) (stateFilter : option gomatrixserverlib.StateFilter)
  : list types.StreamEvent * option error :=
  let '(allState, err) :=
    tables.SelectCurrentState (CurrentRoomState d) (txn d)
      roomID stateFilter [] in
  match err with
  | Some e => ([], Some e)
  | None =>
      (map (fun ev =>
              {| types.HeaderedEvent := ev;
                 types.StreamPos := 0;
                 types.TransactionID_ := None;
                 types.ExcludeFromSync := false |}) allState,
       None)
  end.

Section DeltaEngine.

(** The order in which [range] visits the entries of a map. *)
Variable map_range : forall V : Type, gmap string V -> list (string * V).
Arguments map_range {V} _.

Variable d : DatabaseTransaction.
Variable device : userapi.Device.
Variable r : types.Range.
Variable userID : string.
Variable stateFilter : option gomatrixserverlib.StateFilter.

(** The loop that splits the membership map into all rooms and the
    currently joined rooms. *)
Definition splitMemberships (memberships : gmap string string)
  : list string * list string :=
  fold_left
    (fun acc entry =>
       let '(allRoomIDs, joinedRoomIDs) := acc in
       let '(roomID, membership) := entry in
       (allRoomIDs ++ [roomID],
        if bool_decide (membership = gomatrixserverlib.Join)
        then joinedRoomIDs ++ [roomID]
        else joinedRoomIDs))
    (map_range memberships) ([], []).

(** *** Incremental sync *)

Definition peekDelta (state : gmap string (list types.StreamEvent))
    (peek : types.Peek) : types.StateDelta :=
  {| types.RoomID := types.PeekRoomID peek;
     types.StateEvents :=
       StreamEventsToEvents (Some device)
         (stateAt state (types.PeekRoomID peek));
     types.Membership := gomatrixserverlib.Peek;
     types.MembershipPos := 0;
     types.NewlyJoined := false |}.

(** "add peek blocks": the loop over the peeks in range. *)
Fixpoint addPeekBlocks (peeks : list types.Peek)
    (state : gmap string (list types.StreamEvent))
    (deltas : list types.StateDelta)
  : gmap string (list types.StreamEvent) * list types.StateDelta + error :=
  match peeks with
  | [] => inl (state, deltas)
  | peek :: rest =>
      let emit state' :=
        if negb (types.Deleted peek)
        then deltas ++ [peekDelta state' peek]
        else deltas in
      if types.New peek then
        match currentStateStreamEventsForRoom d (types.PeekRoomID peek)
                stateFilter with
        | (_, Some err) =>
            if bool_decide (err = ErrNoRows)
            then addPeekBlocks rest state deltas
            else inr err
        | (s, None) =>
            let state' := <[types.PeekRoomID peek := s]> state in
            addPeekBlocks rest state' (emit state')
        end
      else addPeekBlocks rest state (emit state)
  end.

(** The state threaded through the membership classification: the
    per-room state, the newly joined rooms and the deltas so far. *)
Record Classified : Type := mkClassified {
  state_ : gmap string (list types.StreamEvent);
  newlyJoinedRooms : gmap string bool;
  deltas_ : list types.StateDelta
}.

Definition membershipDelta (roomID : string)
    (stateStreamEvents : list types.StreamEvent)
    (membership : string) (ev : types.StreamEvent) : types.StateDelta :=
  {| types.RoomID := roomID;
     types.StateEvents := StreamEventsToEvents (Some device) stateStreamEvents;
     types.Membership := membership;
     types.MembershipPos := types.StreamPos ev;
     types.NewlyJoined := false |}.

(** The inner loop over the events of one room.  [stateStreamEvents]
    is the slice obtained when the room was reached, [evs] what is
    left of it to scan. *)
Fixpoint scanRoom (roomID : string)
    (stateStreamEvents evs : list types.StreamEvent) (acc : Classified)
  : Classified + error :=
  match evs with
  | [] => inl acc
  | ev :: rest =>
      let '(membership, prevMembership) :=
        getMembershipFromEvent (types.HeaderedEvent ev) userID in
      if bool_decide (membership ≠ "") then
        if bool_decide (membership = gomatrixserverlib.Join)
           && bool_decide (prevMembership ≠ membership) then
          match currentStateStreamEventsForRoom d roomID stateFilter with
          | (_, Some err) =>
              if bool_decide (err = ErrNoRows)
              then scanRoom roomID stateStreamEvents rest acc
              else inr err
          | (s, None) =>
              scanRoom roomID stateStreamEvents rest
                {| state_ := <[roomID := s]> (state_ acc);
                   newlyJoinedRooms := <[roomID := true]> (newlyJoinedRooms acc);
                   deltas_ := deltas_ acc |}
          end
        else
          inl {| state_ := state_ acc;
                 newlyJoinedRooms := newlyJoinedRooms acc;
                 deltas_ :=
                   deltas_ acc
                   ++ [membershipDelta roomID stateStreamEvents membership ev] |}
      else scanRoom roomID stateStreamEvents rest acc
  end.

(** "handle newly joined rooms and non-joined rooms": the outer loop,
    over the entries of [state] as [range] yields them. *)
Fixpoint classifyRooms (rooms : list (string * list types.StreamEvent))
    (acc : Classified) : Classified + error :=
  match rooms with
  | [] => inl acc
  | (roomID, stateStreamEvents) :: rest =>
      match scanRoom roomID stateStreamEvents stateStreamEvents acc with
      | inr err => inr err
      | inl acc' => classifyRooms rest acc'
      end
  end.

Definition joinedDelta (acc : Classified) (joinedRoomID : string)
  : types.StateDelta :=
  {| types.RoomID := joinedRoomID;
     types.StateEvents :=
       StreamEventsToEvents (Some device) (stateAt (state_ acc) joinedRoomID);
     types.Membership := gomatrixserverlib.Join;
     types.MembershipPos := 0;
     types.NewlyJoined := flagAt (newlyJoinedRooms acc) joinedRoomID |}.

(** "Add in currently joined rooms". *)
Definition addJoinedRooms (joinedRoomIDs : list string) (acc : Classified)
  : list types.StateDelta :=
  fold_left (fun deltas joinedRoomID => deltas ++ [joinedDelta acc joinedRoomID])
    joinedRoomIDs (deltas_ acc).

Definition GetStateDeltas
  : list types.StateDelta * list string * option error :=
  let '(memberships, err) :=
    tables.SelectRoomIDsWithAnyMembership (CurrentRoomState d) (txn d)
      userID in
  match err with
  | Some e => if bool_decide (e = ErrNoRows) then noDeltas else failWith e
  | None =>
  let '(allRoomIDs, joinedRoomIDs) := splitMemberships memberships in
  let '(stateNeeded, eventMap, err) :=
    tables.SelectStateInRange (OutputEvents d) (txn d) r stateFilter
      allRoomIDs in
  match err with
  | Some e => if bool_decide (e = ErrNoRows) then noDeltas else failWith e
  | None =>
  let '(state, err) := fetchStateEvents d (txn d) stateNeeded eventMap in
  match err with
  | Some e => if bool_decide (e = ErrNoRows) then noDeltas else failWith e
  | None =>
  let '(peeks, err) :=
    tables.SelectPeeksInRange (Peeks d) (txn d) userID (userapi.ID device) r in
  if bool_decide (err ≠ None) && bool_decide (err ≠ Some ErrNoRows)
  then match err with Some e => failWith e | None => noDeltas end
  else
  match addPeekBlocks peeks state [] with
  | inr e => failWith e
  | inl (state1, deltas1) =>
  match classifyRooms (map_range state1)
          {| state_ := state1; newlyJoinedRooms := ∅; deltas_ := deltas1 |} with
  | inr e => failWith e
  | inl acc => (addJoinedRooms joinedRoomIDs acc, joinedRoomIDs, None)
  end end end end end.

(** *** Full-state sync *)

Definition fullPeekDelta (peek : types.Peek) (s : list types.StreamEvent)
  : types.StateDelta :=
  {| types.RoomID := types.PeekRoomID peek;
     types.StateEvents := StreamEventsToEvents (Some device) s;
     types.Membership := gomatrixserverlib.Peek;
     types.MembershipPos := 0;
     types.NewlyJoined := false |}.

(** "Add full states for all peeking rooms". *)
Fixpoint addPeekStates (peeks : list types.Peek)
    (deltas : gmap string types.StateDelta)
  : gmap string types.StateDelta + error :=
  match peeks with
  | [] => inl deltas
  | peek :: rest =>
      if negb (types.Deleted peek) then
        match currentStateStreamEventsForRoom d (types.PeekRoomID peek)
                stateFilter with
        | (_, Some stateErr) =>
            if bool_decide (stateErr = ErrNoRows)
            then addPeekStates rest deltas
            else inr stateErr
        | (s, None) =>
            addPeekStates rest
              (<[types.PeekRoomID peek := fullPeekDelta peek s]> deltas)
        end
      else addPeekStates rest deltas
  end.

(** The inner loop of the full-state classification: stop at the first
    membership event of the user, recording it unless it is a join. *)
Fixpoint scanRoomFull (roomID : string)
    (stateStreamEvents evs : list types.StreamEvent)
    (deltas : gmap string types.StateDelta) : gmap string types.StateDelta :=
  match evs with
  | [] => deltas
  | ev :: rest =>
      let '(membership, _) :=
        getMembershipFromEvent (types.HeaderedEvent ev) userID in
      if bool_decide (membership ≠ "") then
        if bool_decide (membership ≠ gomatrixserverlib.Join)
        then <[roomID := membershipDelta roomID stateStreamEvents membership ev]>
               deltas
        else deltas
      else scanRoomFull roomID stateStreamEvents rest deltas
  end.

Definition classifyRoomsFull (rooms : list (string * list types.StreamEvent))
    (deltas : gmap string types.StateDelta) : gmap string types.StateDelta :=
  fold_left
    (fun deltas entry =>
       let '(roomID, stateStreamEvents) := entry in
       scanRoomFull roomID stateStreamEvents stateStreamEvents deltas)
    rooms deltas.

Definition fullJoinedDelta (joinedRoomID : string)
    (s : list types.StreamEvent) : types.StateDelta :=
  {| types.RoomID := joinedRoomID;
     types.StateEvents := StreamEventsToEvents (Some device) s;
     types.Membership := gomatrixserverlib.Join;
     types.MembershipPos := 0;
     types.NewlyJoined := false |}.

(** "Add full states for all joined rooms". *)
Fixpoint addJoinedStates (joinedRoomIDs : list string)
    (deltas : gmap string types.StateDelta)
  : gmap string types.StateDelta + error :=
  match joinedRoomIDs with
  | [] => inl deltas
  | joinedRoomID :: rest =>
      match currentStateStreamEventsForRoom d joinedRoomID stateFilter with
      | (_, Some stateErr) =>
          if bool_decide (stateErr = ErrNoRows)
          then addJoinedStates rest deltas
          else inr stateErr
      | (s, None) =>
          addJoinedStates rest
            (<[joinedRoomID := fullJoinedDelta joinedRoomID s]> deltas)
      end
  end.

(** "Create a response array": the values of the map, in [range]
    order. *)
Definition flattenDeltas (deltas : gmap string types.StateDelta)
  : list types.StateDelta :=
  (map_range deltas).*2.

Definition GetStateDeltasForFullStateSync
  : list types.StateDelta * list string * option error :=
  let '(memberships, err) :=
    tables.SelectRoomIDsWithAnyMembership (CurrentRoomState d) (txn d)
      userID in
  match err with
  | Some e => if bool_decide (e = ErrNoRows) then noDeltas else failWith e
  | None =>
  let '(allRoomIDs, joinedRoomIDs) := splitMemberships memberships in
  let '(peeks, err) :=
    tables.SelectPeeksInRange (Peeks d) (txn d) userID (userapi.ID device) r in
  if bool_decide (err ≠ None) && bool_decide (err ≠ Some ErrNoRows)
  then match err with Some e => failWith e | None => noDeltas end
  else
  match addPeekStates peeks ∅ with
  | inr e => failWith e
  | inl deltas1 =>
  let '(stateNeeded, eventMap, err) :=
    tables.SelectStateInRange (OutputEvents d) (txn d) r stateFilter
      allRoomIDs in
  match err with
  | Some e => if bool_decide (e = ErrNoRows) then noDeltas else failWith e
  | None =>
  let '(state, err) := fetchStateEvents d (txn d) stateNeeded eventMap in
  match err with
  | Some e => if bool_decide (e = ErrNoRows) then noDeltas else failWith e
  | None =>
  let deltas2 := classifyRoomsFull (map_range state) deltas1 in
  match addJoinedStates joinedRoomIDs deltas2 with
  | inr e => failWith e
  | inl deltas3 => (flattenDeltas deltas3, joinedRoomIDs, None)
  end end end end end.

End DeltaEngine.

(** ** Vocabulary of the properties *)

(** The event is no membership event of the user: the classification
    passes step over it. *)
Definition notOwnMembership (userID : string) (ev : types.StreamEvent) : Prop :=
  (getMembershipFromEvent (types.HeaderedEvent ev) userID).1 = "".

(** The event is a membership event of the user that says join after
    something other than join. *)
Definition joinTransition (userID : string) (ev : types.StreamEvent) : Prop :=
  (getMembershipFromEvent (types.HeaderedEvent ev) userID).1
  = gomatrixserverlib.Join
  ∧ (getMembershipFromEvent (types.HeaderedEvent ev) userID).2
    ≠ gomatrixserverlib.Join.

(** The stream events that [currentStateStreamEventsForRoom] makes of a
    room's current state: each event at stream position zero. *)
Definition atPositionZero (allState : list gomatrixserverlib.HeaderedEvent)
  : list types.StreamEvent :=
  map (fun ev =>
         {| types.HeaderedEvent := ev;
            types.StreamPos := 0;
            types.TransactionID_ := None;
            types.ExcludeFromSync := false |}) allState.

(** What the delta engine makes of the error [e] of a query on which the
    whole result depends: no deltas and no error when [e] says that
    there are no rows, and [e] itself otherwise. *)
Definition absorbsNotFound (e : error)
    (result : list types.StateDelta * list string * option error) : Prop :=
  (e = ErrNoRows -> result = ([], [], None))
  ∧ (e ≠ ErrNoRows -> result = ([], [], Some e)).

(** One order in which [range] may visit a map. *)
Definition keyOrder : forall V : Type, gmap string V -> list (string * V) :=
  fun V m => map_to_list m.

(** ** In-memory tables used by the examples *)

Module memory.

(** Modelled from the spec: the event table's lookup by ID belongs to
    the dialect packages, outside this file.  The spec says it returns
    the events stored under the requested IDs and silently drops the
    IDs that are missing. *)
Definition SelectEvents (stored : list types.StreamEvent)
    (_ : option sql.Tx) (eventIDs : list string)
    (_ : option gomatrixserverlib.RoomEventFilter) (_ : bool)
  : list types.StreamEvent * option error :=
  (filter
     (fun se => gomatrixserverlib.EventID (types.HeaderedEvent se) ∈ eventIDs)
     stored,
   None).

Definition events (stored : list types.StreamEvent) : tables.Events :=
  {| tables.SelectEvents := SelectEvents stored;
     tables.SelectStateInRange := fun _ _ _ _ => (∅, ∅, None) |}.

(** A topology index that gives the same answer to every query of a
    kind. *)
Definition topology (eventIDs : list string * option error)
    (position maxPosition : Z * Z * option error)
    (streamToTopo : Z * option error) : tables.Topology :=
  {| tables.SelectEventIDsInRange := fun _ _ _ _ _ _ _ => eventIDs;
     tables.SelectPositionInTopology := fun _ _ => position;
     tables.SelectMaxPositionInTopology := fun _ _ => maxPosition;
     tables.SelectStreamToTopologicalPosition := fun _ _ _ _ => streamToTopo |}.

Definition emptyTopology : tables.Topology :=
  topology ([], None) (0, 0, None) (0, 0, None) (0, None).

Definition currentRoomState
    (memberships : gmap string string * option error)
    (currentState : string -> list gomatrixserverlib.HeaderedEvent * option error)
  : tables.CurrentRoomState :=
  {| tables.SelectCurrentState := fun _ roomID _ _ => currentState roomID;
     tables.SelectRoomIDsWithAnyMembership := fun _ _ => memberships |}.

Definition peeks (inRange : list types.Peek * option error) : tables.Peeks :=
  {| tables.SelectPeeksInRange := fun _ _ _ _ => inRange |}.

Definition sendToDevice
    (messages : Z * list types.SendToDeviceEvent * option error)
  : tables.SendToDevice :=
  {| tables.SelectSendToDeviceMessages := fun _ _ _ _ _ => messages |}.

(** A snapshot for the delta engine: the membership map, the state
    events of the window per room, the peeks of the window and the
    current state of each room. *)
Definition syncSnapshot
    (memberships : gmap string string * option error)
    (stateInRange : option error)
    (windowState : gmap string (list types.StreamEvent) * option error)
    (inRange : list types.Peek * option error)
    (currentState : string -> list gomatrixserverlib.HeaderedEvent * option error)
  : DatabaseTransaction :=
  {| database :=
       {| OutputEvents :=
            {| tables.SelectEvents := fun _ _ _ _ => ([], None);
               tables.SelectStateInRange :=
                 fun _ _ _ _ => (∅, ∅, stateInRange) |};
          Topology := emptyTopology;
          CurrentRoomState := currentRoomState memberships currentState;
          Peeks := peeks inRange;
          SendToDevice := sendToDevice (0, [], None);
          fetchStateEvents := fun _ _ _ => windowState |};
     txn := None |}.

(** A snapshot for pagination and event lookup. *)
Definition eventSnapshot (index : tables.Topology) (table : tables.Events)
    (messages : Z * list types.SendToDeviceEvent * option error)
    (tx : option sql.Tx) : DatabaseTransaction :=
  {| database :=
       {| OutputEvents := table;
          Topology := index;
          CurrentRoomState := currentRoomState (∅, None) (fun _ => ([], None));
          Peeks := peeks ([], None);
          SendToDevice := sendToDevice messages;
          fetchStateEvents := fun _ _ _ => (∅, None) |};
     txn := tx |}.

Definition alice : string := "@alice:example.org".

Definition phone : userapi.Device :=
  {| userapi.ID := "PHONE"; userapi.UserID := alice; userapi.SessionID := 7 |}.

Definition window : types.Range :=
  {| types.From := 0; types.To := 10; types.Backwards := false |}.

Definition memberEvent (eventID roomID membership prevMembership : string)
  : gomatrixserverlib.HeaderedEvent :=
  {| gomatrixserverlib.EventID := eventID;
     gomatrixserverlib.RoomID := roomID;
     gomatrixserverlib.Type_ := "m.room.member";
     gomatrixserverlib.StateKey := Some alice;
     gomatrixserverlib.Sender := alice;
     gomatrixserverlib.Membership := membership;
     gomatrixserverlib.PrevMembership := prevMembership;
     gomatrixserverlib.UnsignedTransactionID := None |}.

Definition nameEvent (eventID roomID : string)
  : gomatrixserverlib.HeaderedEvent :=
  {| gomatrixserverlib.EventID := eventID;
     gomatrixserverlib.RoomID := roomID;
     gomatrixserverlib.Type_ := "m.room.name";
     gomatrixserverlib.StateKey := Some "";
     gomatrixserverlib.Sender := alice;
     gomatrixserverlib.Membership := "";
     gomatrixserverlib.PrevMembership := "";
     gomatrixserverlib.UnsignedTransactionID := None |}.

Definition streamed (pos : Z) (ev : gomatrixserverlib.HeaderedEvent)
  : types.StreamEvent :=
  {| types.HeaderedEvent := ev;
     types.StreamPos := pos;
     types.TransactionID_ := None;
     types.ExcludeFromSync := false |}.

(** An event sent from [phone]'s session, with its transaction ID
    recorded next to it. *)
Definition sentFromPhone (pos : Z) (ev : gomatrixserverlib.HeaderedEvent)
  : types.StreamEvent :=
  {| types.HeaderedEvent := ev;
     types.StreamPos := pos;
     types.TransactionID_ :=
       Some {| types.TxnSessionID := 7; types.TxnID := "m1" |};
     types.ExcludeFromSync := false |}.

Definition openTx : sql.Tx :=
  {| sql.done_ := false;
     sql.driverCommit := Some (ErrStorage "connection lost");
     sql.driverRollback := Some (ErrStorage "connection lost") |}.

(** Alice joined the room at position 5 and left it at position 7; her
    latest membership is leave. *)
Definition joinedThenLeft : DatabaseTransaction :=
  syncSnapshot ({["!room" := "leave"]}, None) None
    ({["!room" :=
         [streamed 5 (memberEvent "$join" "!room" "join" "leave");
          streamed 7 (memberEvent "$leave" "!room" "leave" "join")]]}, None)
    ([], None)
    (fun _ =>
       ([nameEvent "$name" "!room";
         memberEvent "$leave" "!room" "leave" "join"], None)).

(** Alice joined the room at position 5 and the current-state table
    reports no rows for it. *)
Definition joinedStateMissing : DatabaseTransaction :=
  syncSnapshot ({["!room" := "join"]}, None) None
    ({["!room" :=
         [streamed 5 (memberEvent "$join" "!room" "join" "leave")]]}, None)
    ([], None)
    (fun _ => ([], Some ErrNoRows)).

(** Alice, who had left the room, joined it at position 5; the room was
    named at position 4. *)
Definition newlyJoined : DatabaseTransaction :=
  syncSnapshot ({["!room" := "join"]}, None) None
    ({["!room" :=
         [streamed 4 (nameEvent "$name" "!room");
          streamed 5 (memberEvent "$join" "!room" "join" "leave")]]}, None)
    ([], None)
    (fun _ =>
       ([nameEvent "$name" "!room";
         memberEvent "$join" "!room" "join" "leave"], None)).

(** Alice, a member of the room, changed her display name at position
    5: a membership event that says join after join. *)
Definition profileChanged : DatabaseTransaction :=
  syncSnapshot ({["!room" := "join"]}, None) None
    ({["!room" :=
         [streamed 5 (memberEvent "$rename" "!room" "join" "join")]]}, None)
    ([], None)
    (fun _ =>
       ([nameEvent "$name" "!room";
         memberEvent "$rename" "!room" "join" "join"], None)).

(** Alice is a member of the room and her phone holds a peek on it that
    is neither new nor deleted; nothing else happened in the window. *)
Definition peekedAndJoined : DatabaseTransaction :=
  syncSnapshot ({["!room" := "join"]}, None) None
    (∅, None)
    ([ {| types.PeekRoomID := "!room"; types.New := false; types.Deleted := false |} ],
     None)
    (fun _ => ([nameEvent "$name" "!room"], None)).

(** The membership table reports no rows for Alice. *)
Definition membershipsMissing : DatabaseTransaction :=
  syncSnapshot (∅, Some ErrNoRows) None (∅, None) ([], None)
    (fun _ => ([], None)).

(** As [joinedThenLeft], with a current-state table that reports no
    rows. *)
Definition joinedThenLeftStateMissing : DatabaseTransaction :=
  syncSnapshot ({["!room" := "leave"]}, None) None
    ({["!room" :=
         [streamed 5 (memberEvent "$join" "!room" "join" "leave");
          streamed 7 (memberEvent "$leave" "!room" "leave" "join")]]}, None)
    ([], None)
    (fun _ => ([], Some ErrNoRows)).

End memory.

(** ** Further accessors of the session *)

Definition MaxTopologicalPosition (d : DatabaseTransaction) (roomID : string)
  : types.TopologyToken * option error :=
  let '(depth, streamPos, err) :=
    tables.SelectMaxPositionInTopology (Topology d) (txn d) roomID in
  match err with
  | Some e => (types.zeroToken, Some e)
  | None => ({| types.Depth := depth; types.PDUPosition := streamPos |}, None)
  end.

Definition EventPositionInTopology (d : DatabaseTransaction) (eventID : string)
  : types.TopologyToken * option error :=
  let '(depth, stream, err) :=
    tables.SelectPositionInTopology (Topology d) (txn d) eventID in
  match err with
  | Some e => (types.zeroToken, Some e)
  | None => ({| types.Depth := depth; types.PDUPosition := stream |}, None)
  end.

(** ** Unread notification counts *)

Module eventutil.

Record NotificationData : Type := mkNotificationData {
  NotificationRoomID : string;
  UnreadHighlightCount : Z;
  UnreadNotificationCount : Z
}.

End eventutil.

(** The [NotificationData] table of [Database].  The session reaches it
    as [d.NotificationData]; here it is handed over next to the
    session. *)
Record NotificationDataTable : Type := mkNotificationDataTable {
  SelectUserUnreadCountsForRooms :
    option sql.Tx -> string -> list string ->
    gmap string eventutil.NotificationData * option error
}.

Section NotificationCounts.

Variable map_range : forall V : Type, gmap string V -> list (string * V).
Arguments map_range {V} _.

(** The loop that keeps the rooms whose membership is join. *)
Definition joinedRoomIDsOf (rooms : gmap string string) : list string :=
  fold_left
    (fun roomIDs entry =>
       let '(roomID, membership) := entry in
       if bool_decide (membership ≠ gomatrixserverlib.Join)
       then roomIDs
       else roomIDs ++ [roomID])
    (map_range rooms) [].

Definition GetUserUnreadNotificationCountsForRooms
    (notificationData : NotificationDataTable) (d : DatabaseTransaction)
    (userID : string) (rooms : gmap string string)
  : gmap string eventutil.NotificationData * option error :=
  SelectUserUnreadCountsForRooms notificationData (txn d) userID
    (joinedRoomIDsOf rooms).

End NotificationCounts.

(** ** The profile table of the user API ([sqlite3]) *)

Module authtypes.

Record Profile : Type := mkProfile {
  Localpart : string;
  ServerName : string;
  DisplayName : string;
  AvatarURL : string
}.

End authtypes.

Module sqlite3.

(** What [rows.Scan] makes of one row of the search: a profile, or the
    error of the scan. *)
Definition ScannedRow : Type := (authtypes.Profile + error)%type.

(** The part of [profilesStatements] that the search uses: the
    localpart of the server-notices user and the prepared search
    statement, which answers a pattern and a limit with rows or with an
    error. *)
Record profilesStatements : Type := mkProfilesStatements {
  serverNoticesLocalpart : string;
  selectProfilesBySearchStmt :
    string -> Z -> list ScannedRow * option error
}.

(** The loop over [rows.Next()]. *)
Fixpoint scanProfiles (s : profilesStatements) (rows : list ScannedRow)
    (profiles : list authtypes.Profile)
  : list authtypes.Profile * option error :=
  match rows with
  | [] => (profiles, None)
  | inr err :: _ => ([], Some err)
  | inl profile :: rest =>
      scanProfiles s rest
        (if bool_decide (authtypes.Localpart profile ≠ serverNoticesLocalpart s)
         then profiles ++ [profile]
         else profiles)
  end.

(** [fmt.Sprintf("%%%s%%", searchString)] *)
Definition likePattern (searchString : string) : string :=
  "%" +:+ searchString +:+ "%".

Definition SelectProfilesBySearch (s : profilesStatements)
    (searchString : string) (limit : Z)
  : list authtypes.Profile * option error :=
  let '(rows, err) :=
    selectProfilesBySearchStmt s (likePattern searchString) limit in
  match err with
  | Some e => ([], Some e)
  | None => scanProfiles s rows []
  end.

End sqlite3.

(** ** More snapshots for the examples *)

Module memory2.

(** Alice is a member of two rooms and has left a third; the peek table
    cannot be read. *)
Definition peeksUnreadable : DatabaseTransaction :=
  memory.syncSnapshot
    ({["!a" := "join"; "!b" := "leave"; "!c" := "join"]}, None) None
    (∅, None)
    ([], Some (ErrStorage "peeks unreadable"))
    (fun _ => ([], None)).

(** Alice is a member of [!a] and [!c] and left [!b] at position 6; her
    phone started to peek into [!p] in the window and gave up a peek
    into [!q].  Every room's current state is its name event. *)
Definition busyWindow : DatabaseTransaction :=
  memory.syncSnapshot
    ({["!a" := "join"; "!b" := "leave"; "!c" := "join"]}, None) None
    ({["!b" :=
         [memory.streamed 6 (memory.memberEvent "$left" "!b" "leave" "join")]]},
     None)
    ([ {| types.PeekRoomID := "!p"; types.New := true; types.Deleted := false |};
       {| types.PeekRoomID := "!q"; types.New := false; types.Deleted := true |} ],
     None)
    (fun roomID => ([memory.nameEvent "$name" roomID], None)).

Definition countsOf (roomIDs : list string)
  : gmap string eventutil.NotificationData :=
  list_to_map
    ((fun roomID =>
        (roomID,
         {| eventutil.NotificationRoomID := roomID;
            eventutil.UnreadHighlightCount := 0;
            eventutil.UnreadNotificationCount := 1 |})) <$> roomIDs).

(** A notification table that counts one unread notification in every
    room it is asked about. *)
Definition oneUnreadEach : NotificationDataTable :=
  {| SelectUserUnreadCountsForRooms := fun _ _ roomIDs => (countsOf roomIDs, None) |}.

Definition profile (localpart displayName : string) : authtypes.Profile :=
  {| authtypes.Localpart := localpart;
     authtypes.ServerName := "example.org";
     authtypes.DisplayName := displayName;
     authtypes.AvatarURL := "" |}.

(** A profile table whose search statement answers every query with the
    given rows. *)
Definition profilesAnswering (rows : list sqlite3.ScannedRow)
  : sqlite3.profilesStatements :=
  {| sqlite3.serverNoticesLocalpart := "_server";
     sqlite3.selectProfilesBySearchStmt := fun _ _ => (rows, None) |}.

End memory2.

(** * Properties *)

(** ** Releasing the session *)

(** C9. [Commit] and [Rollback] on a session whose transaction handle is
    nil return a nil error and leave the session as it was: nothing is
    sent to the driver, so releasing such a session cannot fail. *)
Theorem Commit_Rollback_nil_txn (d : DatabaseTransaction) :
  txn d = None ->
  Commit d = (d, None) ∧ Rollback d = (d, None).
Proof.
  intros Hnil. unfold Commit, Rollback. rewrite Hnil. split; reflexivity.
Qed.

Lemma Commit_Rollback_nil_txn_witness :
  let d := memory.eventSnapshot memory.emptyTopology (memory.events [])
             (0, [], None) None in
  txn d = None ∧ Commit d = (d, None) ∧ Rollback d = (d, None).
Proof.
  intros d. split; [reflexivity |].
  apply (Commit_Rollback_nil_txn d). reflexivity.
Defined.

(** With a handle the driver is asked, and its failure is the result. *)
Example Commit_open_txn_fails :
  (Commit (memory.eventSnapshot memory.emptyTopology (memory.events [])
             (0, [], None) (Some memory.openTx))).2
  = Some (ErrStorage "connection lost").
Proof. reflexivity. Qed.

(** ** Topology *)

(** C10. On an empty list of stream events [GetBackwardTopologyPos]
    returns the zero token and a nil error whatever the database holds,
    so no lookup takes part in the result; on a non-empty list the
    position of the first event is looked up, decremented when the
    lookup succeeds and replaced by the zero token and the lookup's
    error when it fails. *)
Theorem GetBackwardTopologyPos_empty_or_first
    (Decrement : types.TopologyToken -> types.TopologyToken)
    (d : DatabaseTransaction) :
  GetBackwardTopologyPos Decrement d [] = (types.zeroToken, None)
  ∧ (∀ ev rest pos spos,
       tables.SelectPositionInTopology (Topology d) (txn d)
         (gomatrixserverlib.EventID (types.HeaderedEvent ev)) = (pos, spos, None) ->
       GetBackwardTopologyPos Decrement d (ev :: rest)
       = (Decrement {| types.Depth := pos; types.PDUPosition := spos |}, None))
  ∧ (∀ ev rest pos spos e,
       tables.SelectPositionInTopology (Topology d) (txn d)
         (gomatrixserverlib.EventID (types.HeaderedEvent ev)) = (pos, spos, Some e) ->
       GetBackwardTopologyPos Decrement d (ev :: rest) = (types.zeroToken, Some e)).
Proof.
  split; [reflexivity |].
  split; intros; simpl; rewrite H; reflexivity.
Qed.

Lemma GetBackwardTopologyPos_empty_or_first_witness :
  let down t :=
    {| types.Depth := types.Depth t - 1; types.PDUPosition := types.PDUPosition t |} in
  let failing :=
    memory.eventSnapshot
      (memory.topology ([], None) (0, 0, Some (ErrStorage "down")) (0, 0, None) (0, None))
      (memory.events []) (0, [], None) None in
  let d :=
    memory.eventSnapshot
      (memory.topology ([], None) (4, 12, None) (5, 13, None) (0, None))
      (memory.events []) (0, [], None) None in
  let ev := memory.streamed 12 (memory.nameEvent "$e12" "!room") in
  GetBackwardTopologyPos down failing [] = (types.zeroToken, None)
  ∧ GetBackwardTopologyPos down d [ev]
    = ({| types.Depth := 3; types.PDUPosition := 12 |}, None)
  ∧ GetBackwardTopologyPos down failing [ev]
    = (types.zeroToken, Some (ErrStorage "down")).
Proof.
  intros down failing d ev.
  split; [apply (GetBackwardTopologyPos_empty_or_first down failing) |].
  split.
  - apply (proj1 (proj2 (GetBackwardTopologyPos_empty_or_first down d))
             ev [] 4 12).
    reflexivity.
  - apply (proj2 (proj2 (GetBackwardTopologyPos_empty_or_first down failing))
             ev [] 0 0).
    reflexivity.
Defined.

(** C4. [StreamToTopologicalPosition] absorbs the not-found answer of
    the topology lookup: going backward it returns depth 0 with the
    requested stream position and no error; going forward it returns the
    room's maximum topological position (or, if that lookup fails, its
    error wrapped).  Every other error of the lookup is returned wrapped,
    and a successful lookup gives the depth found with the requested
    stream position. *)
Theorem StreamToTopologicalPosition_absorbs_not_found
    (d : DatabaseTransaction) (roomID : string)
    (streamPos : types.StreamPosition) (backward : bool)
    (topoPos : types.StreamPosition) (err : option error) :
  tables.SelectStreamToTopologicalPosition (Topology d) (txn d)
    roomID streamPos backward = (topoPos, err) ->
  (err = Some ErrNoRows -> backward = true ->
     StreamToTopologicalPosition d roomID streamPos backward
     = ({| types.Depth := 0; types.PDUPosition := streamPos |}, None))
  ∧ (err = Some ErrNoRows -> backward = false ->
     ∀ maxDepth maxPos,
       tables.SelectMaxPositionInTopology (Topology d) (txn d) roomID
       = (maxDepth, maxPos, None) ->
       StreamToTopologicalPosition d roomID streamPos backward
       = ({| types.Depth := maxDepth; types.PDUPosition := maxPos |}, None))
  ∧ (err = Some ErrNoRows -> backward = false ->
     ∀ maxDepth maxPos e,
       tables.SelectMaxPositionInTopology (Topology d) (txn d) roomID
       = (maxDepth, maxPos, Some e) ->
       StreamToTopologicalPosition d roomID streamPos backward
       = (types.zeroToken,
          Some (Errorf "d.Topology.SelectMaxPositionInTopology" e)))
  ∧ (∀ e, err = Some e -> e ≠ ErrNoRows ->
       StreamToTopologicalPosition d roomID streamPos backward
       = (types.zeroToken,
          Some (Errorf "d.Topology.SelectStreamToTopologicalPosition" e)))
  ∧ (err = None ->
       StreamToTopologicalPosition d roomID streamPos backward
       = ({| types.Depth := topoPos; types.PDUPosition := streamPos |}, None)).
Proof.
  intros Hsel. unfold StreamToTopologicalPosition. rewrite Hsel.
  repeat split.
  - intros -> ->. reflexivity.
  - intros -> -> maxDepth maxPos Hmax. simpl. rewrite Hmax. reflexivity.
  - intros -> -> maxDepth maxPos e Hmax. simpl. rewrite Hmax. reflexivity.
  - intros e -> Hne.
    rewrite bool_decide_eq_false_2 by congruence. reflexivity.
  - intros ->. reflexivity.
Qed.

(** The spec's scenario: no event at the cursor, going forward, in a
    room whose maximum topological position is (7, 99). *)
Lemma StreamToTopologicalPosition_absorbs_not_found_witness :
  let d :=
    memory.eventSnapshot
      (memory.topology ([], None) (0, 0, None) (7, 99, None) (0, Some ErrNoRows))
      (memory.events []) (0, [], None) None in
  StreamToTopologicalPosition d "!room" 1000 false
  = ({| types.Depth := 7; types.PDUPosition := 99 |}, None)
  ∧ StreamToTopologicalPosition d "!room" 1000 true
    = ({| types.Depth := 0; types.PDUPosition := 1000 |}, None).
Proof.
  intros d. split.
  - apply (proj1 (proj2 (StreamToTopologicalPosition_absorbs_not_found
                           d "!room" 1000 false 0 (Some ErrNoRows) eq_refl)));
      reflexivity.
  - apply (proj1 (StreamToTopologicalPosition_absorbs_not_found
                    d "!room" 1000 true 0 (Some ErrNoRows) eq_refl));
      reflexivity.
Defined.

(** C5. Pagination hands the topology index [to.depth] as minimum,
    [from.depth] as maximum and [from.pdu_pos] as the stream bound at
    the maximum depth when going backward, and [from.depth], [to.depth]
    and an unset (zero) stream bound when going forward; either way the
    query carries the filter's limit and asks for ascending order exactly
    when not going backward.  The IDs it returns are looked up in the
    event table with the same filter and with the order preserved; an
    error of the ID query is returned as it is, with no events. *)
Theorem GetEventsInTopologicalRange_bounds
    (d : DatabaseTransaction) (from to : types.TopologyToken)
    (roomID : string) (filter : gomatrixserverlib.RoomEventFilter)
    (backward : bool) (eIDs : list string) (err : option error) :
  tables.SelectEventIDsInRange (Topology d) (txn d) roomID
    (if backward then types.Depth to else types.Depth from)
    (if backward then types.Depth from else types.Depth to)
    (if backward then types.PDUPosition from else 0)
    (gomatrixserverlib.Limit filter) (negb backward) = (eIDs, err) ->
  GetEventsInTopologicalRange d from to roomID filter backward
  = match err with
    | Some e => ([], Some e)
    | None =>
        tables.SelectEvents (OutputEvents d) (txn d) eIDs (Some filter) true
    end.
Proof.
  intros Hids. unfold GetEventsInTopologicalRange.
  destruct backward; simpl in *; rewrite Hids; reflexivity.
Qed.

Lemma GetEventsInTopologicalRange_bounds_witness :
  let e12 := memory.streamed 12 (memory.nameEvent "$e12" "!room") in
  let e13 := memory.streamed 13 (memory.nameEvent "$e13" "!room") in
  let d :=
    memory.eventSnapshot
      {| tables.SelectEventIDsInRange :=
           fun _ _ minDepth maxDepth maxStreamPos limit ascending =>
             if bool_decide (minDepth = 3 ∧ maxDepth = 5 ∧ maxStreamPos = 13
                             ∧ limit = 10 ∧ ascending = false)
             then (["$e13"; "$e12"], None)
             else ([], Some (ErrStorage "unexpected query"));
         tables.SelectPositionInTopology := fun _ _ => (0, 0, None);
         tables.SelectMaxPositionInTopology := fun _ _ => (0, 0, None);
         tables.SelectStreamToTopologicalPosition := fun _ _ _ _ => (0, None) |}
      (memory.events [e12; e13]) (0, [], None) None in
  GetEventsInTopologicalRange d
    {| types.Depth := 5; types.PDUPosition := 13 |}
    {| types.Depth := 3; types.PDUPosition := 10 |}
    "!room"
    {| gomatrixserverlib.Limit := 10;
       gomatrixserverlib.Types := [];
       gomatrixserverlib.NotTypes := [] |}
    true
  = ([e12; e13], None).
Proof.
  intros e12 e13 d.
  apply (GetEventsInTopologicalRange_bounds d
           {| types.Depth := 5; types.PDUPosition := 13 |}
           {| types.Depth := 3; types.PDUPosition := 10 |}
           "!room"
           {| gomatrixserverlib.Limit := 10;
              gomatrixserverlib.Types := [];
              gomatrixserverlib.NotTypes := [] |}
           true ["$e13"; "$e12"] None).
  reflexivity.
Defined.

(** ** Send-to-device *)

(** C6. [SendToDeviceUpdatesForSync] returns the cursor [to] and no
    events when the table yields none in the window, the table's last
    position with the events when it yields some, and [from] with the
    wrapped error when the table fails. *)
Theorem SendToDeviceUpdatesForSync_cursor
    (d : DatabaseTransaction) (userID deviceID : string)
    (from to lastPos : types.StreamPosition)
    (events : list types.SendToDeviceEvent) (err : option error) :
  tables.SelectSendToDeviceMessages (SendToDevice d) (txn d)
    userID deviceID from to = (lastPos, events, err) ->
  (err = None -> events = [] ->
     SendToDeviceUpdatesForSync d userID deviceID from to = (to, [], None))
  ∧ (err = None -> events ≠ [] ->
     SendToDeviceUpdatesForSync d userID deviceID from to
     = (lastPos, events, None))
  ∧ (∀ e, err = Some e ->
     SendToDeviceUpdatesForSync d userID deviceID from to
     = (from, [],
        Some (Errorf "d.SendToDevice.SelectSendToDeviceMessages" e))).
Proof.
  intros Hsel. unfold SendToDeviceUpdatesForSync. rewrite Hsel.
  repeat split.
  - intros -> ->. reflexivity.
  - intros -> Hsome. destruct events as [|ev events]; [congruence |].
    reflexivity.
  - intros e ->. reflexivity.
Qed.

Lemma SendToDeviceUpdatesForSync_cursor_witness :
  let msg :=
    {| types.SendID := 42;
       types.SendUserID := memory.alice;
       types.SendDeviceID := "PHONE";
       types.SendContent := "m.room_key" |} in
  let snapshot messages :=
    memory.eventSnapshot memory.emptyTopology (memory.events []) messages None in
  SendToDeviceUpdatesForSync (snapshot (0, [], None)) memory.alice "PHONE" 30 50
  = (50, [], None)
  ∧ SendToDeviceUpdatesForSync (snapshot (42, [msg], None)) memory.alice "PHONE" 30 50
    = (42, [msg], None)
  ∧ SendToDeviceUpdatesForSync (snapshot (0, [], Some (ErrStorage "down")))
      memory.alice "PHONE" 30 50
    = (30, [],
       Some (Errorf "d.SendToDevice.SelectSendToDeviceMessages" (ErrStorage "down"))).
Proof.
  intros msg snapshot. split; [| split].
  - apply (proj1 (SendToDeviceUpdatesForSync_cursor (snapshot (0, [], None))
                    memory.alice "PHONE" 30 50 0 [] None eq_refl));
      reflexivity.
  - apply (proj1 (proj2 (SendToDeviceUpdatesForSync_cursor
                           (snapshot (42, [msg], None))
                           memory.alice "PHONE" 30 50 42 [msg] None eq_refl)));
      [reflexivity | discriminate].
  - apply (proj2 (proj2 (SendToDeviceUpdatesForSync_cursor
                           (snapshot (0, [], Some (ErrStorage "down")))
                           memory.alice "PHONE" 30 50 0 []
                           (Some (ErrStorage "down")) eq_refl))).
    reflexivity.
Defined.

(** ** Event lookup *)

(** Without a device, converting stream events to events is the
    projection on the stored event. *)
Lemma StreamEventsToEvents_no_device (in_ : list types.StreamEvent) :
  StreamEventsToEvents None in_ = map types.HeaderedEvent in_.
Proof. reflexivity. Qed.

(** With a device the recorded transaction ID is attached. *)
Example StreamEventsToEvents_device_attaches :
  gomatrixserverlib.UnsignedTransactionID
    <$> StreamEventsToEvents (Some memory.phone)
          [memory.sentFromPhone 9 (memory.nameEvent "$m" "!room")]
  = [Some "m1"].
Proof. reflexivity. Qed.

(** C8. Over an event table that answers with the stored events whose ID
    was requested, [Events] never fails; every event it returns is a
    stored event, unchanged, whose ID was requested; every stored event
    whose ID was requested is returned; IDs that are not stored
    contribute nothing.  The transaction ID recorded next to a stream
    event is never written into the returned event: if the stored events
    have none in their unsigned section, neither have the returned
    ones. *)
Theorem Events_found_only_without_transaction_ids
    (d : DatabaseTransaction) (stored : list types.StreamEvent)
    (eventIDs : list string) :
  tables.SelectEvents (OutputEvents d) = memory.SelectEvents stored ->
  ∃ events,
    Events d eventIDs = (events, None)
    ∧ (∀ ev, ev ∈ events ->
         gomatrixserverlib.EventID ev ∈ eventIDs
         ∧ ∃ se, se ∈ stored ∧ ev = types.HeaderedEvent se)
    ∧ (∀ se, se ∈ stored ->
         gomatrixserverlib.EventID (types.HeaderedEvent se) ∈ eventIDs ->
         types.HeaderedEvent se ∈ events)
    ∧ (Forall (fun se =>
                 gomatrixserverlib.UnsignedTransactionID (types.HeaderedEvent se)
                 = None) stored ->
       Forall (fun ev => gomatrixserverlib.UnsignedTransactionID ev = None)
         events).
Proof.
  intros Htable. unfold Events. rewrite Htable. unfold memory.SelectEvents.
  eexists. split; [reflexivity |].
  rewrite StreamEventsToEvents_no_device.
  split; [| split].
  - intros ev Hin. apply list_elem_of_fmap in Hin as (se & -> & Hse).
    apply list_elem_of_filter in Hse as [Hid Hstored]. eauto.
  - intros se Hstored Hid. apply list_elem_of_fmap.
    exists se. split; [reflexivity |].
    apply list_elem_of_filter. auto.
  - intros Hnone. apply Forall_fmap, Forall_forall.
    intros se Hse. apply list_elem_of_filter in Hse as [_ Hstored].
    rewrite Forall_forall in Hnone. apply Hnone, Hstored.
Qed.

Lemma Events_found_only_without_transaction_ids_witness :
  let e1 := memory.nameEvent "$e1" "!room" in
  let e2 := memory.nameEvent "$e2" "!room" in
  let stored := [memory.sentFromPhone 1 e1; memory.streamed 2 e2] in
  let d :=
    memory.eventSnapshot memory.emptyTopology (memory.events stored)
      (0, [], None) None in
  tables.SelectEvents (OutputEvents d) = memory.SelectEvents stored
  ∧ Events d ["$missing"; "$e1"] = ([e1], None)
  ∧ ∃ events,
      Events d ["$missing"; "$e1"] = (events, None)
      ∧ Forall (fun ev => gomatrixserverlib.UnsignedTransactionID ev = None)
          events.
Proof.
  intros e1 e2 stored d.
  split; [reflexivity |]. split; [reflexivity |].
  destruct (Events_found_only_without_transaction_ids
              d stored ["$missing"; "$e1"] eq_refl)
    as (events & Hev & _ & _ & Hnone).
  exists events. split; [exact Hev |].
  apply Hnone. repeat constructor.
Defined.

(** ** The delta engine *)

(** Events synthesised from the current state carry no transaction ID,
    so converting them back gives the current state itself. *)
Lemma StreamEventsToEvents_current_state
    (device : option userapi.Device)
    (allState : list gomatrixserverlib.HeaderedEvent) :
  StreamEventsToEvents device
    (map (fun ev =>
            {| types.HeaderedEvent := ev;
               types.StreamPos := 0;
               types.TransactionID_ := None;
               types.ExcludeFromSync := false |}) allState)
  = allState.
Proof.
  induction allState as [|ev evs IH]; [reflexivity |].
  unfold StreamEventsToEvents in *. simpl. rewrite IH.
  destruct device; reflexivity.
Qed.

Lemma currentStateStreamEventsForRoom_ok
    (d : DatabaseTransaction) (roomID : string)
    (stateFilter : option gomatrixserverlib.StateFilter)
    (allState : list gomatrixserverlib.HeaderedEvent) :
  tables.SelectCurrentState (CurrentRoomState d) (txn d) roomID stateFilter []
  = (allState, None) ->
  currentStateStreamEventsForRoom d roomID stateFilter
  = (map (fun ev =>
            {| types.HeaderedEvent := ev;
               types.StreamPos := 0;
               types.TransactionID_ := None;
               types.ExcludeFromSync := false |}) allState, None).
Proof. intros H. unfold currentStateStreamEventsForRoom. rewrite H. reflexivity. Qed.

Lemma currentStateStreamEventsForRoom_error
    (d : DatabaseTransaction) (roomID : string)
    (stateFilter : option gomatrixserverlib.StateFilter)
    (allState : list gomatrixserverlib.HeaderedEvent) (e : error) :
  tables.SelectCurrentState (CurrentRoomState d) (txn d) roomID stateFilter []
  = (allState, Some e) ->
  currentStateStreamEventsForRoom d roomID stateFilter = ([], Some e).
Proof. intros H. unfold currentStateStreamEventsForRoom. rewrite H. reflexivity. Qed.

(** *** Deltas listed under their room *)

Lemma filter_room_absent (l : list (string * types.StateDelta)) (R : string) :
  Forall (fun p => types.RoomID p.2 = p.1) l ->
  R ∉ l.*1 ->
  filter (fun x => types.RoomID x = R) l.*2 = [].
Proof.
  induction l as [|[k x] l IH]; intros Hkey Hout; [reflexivity |].
  apply Forall_cons in Hkey as [Hkx Hkey]. simpl in *.
  apply not_elem_of_cons in Hout as [Hne Hout].
  rewrite filter_cons_False by congruence. auto.
Qed.

Lemma filter_room_keyed (l : list (string * types.StateDelta))
    (R : string) (δ : types.StateDelta) :
  NoDup l.*1 ->
  Forall (fun p => types.RoomID p.2 = p.1) l ->
  (R, δ) ∈ l ->
  filter (fun x => types.RoomID x = R) l.*2 = [δ].
Proof.
  induction l as [|[k x] l IH]; intros Hnd Hkey Hin.
  - inversion Hin.
  - simpl in *. apply NoDup_cons in Hnd as [Hk Hnd].
    pose proof Hkey as Hkey'.
    apply Forall_cons in Hkey as [Hkx Hkey]. simpl in Hkx.
    apply elem_of_cons in Hin as [Heq | Hin].
    + injection Heq as <- <-. rewrite filter_cons_True by exact Hkx.
      f_equal. apply filter_room_absent; assumption.
    + assert (R ≠ k) as Hne.
      { intros ->. apply Hk. apply list_elem_of_fmap. exists (k, δ). auto. }
      rewrite filter_cons_False by congruence. auto.
Qed.

Lemma room_keys (l : list (string * types.StateDelta)) :
  Forall (fun p => types.RoomID p.2 = p.1) l ->
  types.RoomID <$> l.*2 = l.*1.
Proof.
  induction 1 as [|[k x] l Hk _ IH]; [reflexivity |].
  rewrite !fmap_cons. simpl in *. rewrite Hk, IH. reflexivity.
Qed.

Section RangeOrder.

Variable map_range : forall V : Type, gmap string V -> list (string * V).
Hypothesis map_range_perm :
  forall (V : Type) (m : gmap string V), map_range V m ≡ₚ map_to_list m.

Lemma elem_of_map_range {V : Type} (m : gmap string V) (k : string) (v : V) :
  (k, v) ∈ map_range V m ↔ m !! k = Some v.
Proof. rewrite map_range_perm. apply elem_of_map_to_list. Qed.

Lemma NoDup_map_range {V : Type} (m : gmap string V) :
  NoDup (map_range V m).*1.
Proof. rewrite map_range_perm. apply NoDup_fst_map_to_list. Qed.

(** The membership loop collects every room, and the rooms whose latest
    membership is join. *)
Lemma splitMemberships_spec (memberships : gmap string string) :
  splitMemberships map_range memberships
  = ((map_range _ memberships).*1,
     (filter (fun p => p.2 = gomatrixserverlib.Join)
        (map_range _ memberships)).*1).
Proof.
  unfold splitMemberships.
  assert (∀ l all joined,
    fold_left
      (fun acc entry =>
         let '(allRoomIDs, joinedRoomIDs) := acc in
         let '(roomID, membership) := entry in
         (allRoomIDs ++ [roomID],
          if bool_decide (membership = gomatrixserverlib.Join)
          then joinedRoomIDs ++ [roomID]
          else joinedRoomIDs)) l (all, joined)
    = (all ++ l.*1,
       joined ++ (filter (fun p : string * string => p.2 = gomatrixserverlib.Join) l).*1))
    as Hgen.
  { induction l as [|[k m] l IH]; intros all joined; simpl.
    - rewrite !app_nil_r. reflexivity.
    - rewrite IH. rewrite <- !app_assoc. simpl.
      case_bool_decide as Hm.
      + rewrite filter_cons_True by exact Hm.
        rewrite <- app_assoc. reflexivity.
      + rewrite filter_cons_False by exact Hm. reflexivity. }
  apply Hgen.
Qed.

Lemma joined_rooms_spec (memberships : gmap string string) (R : string) :
  R ∈ (splitMemberships map_range memberships).2
  ↔ memberships !! R = Some gomatrixserverlib.Join.
Proof.
  rewrite splitMemberships_spec. simpl. rewrite list_elem_of_fmap. split.
  - intros ([k m] & -> & Hin). apply list_elem_of_filter in Hin as [Hm Hin].
    simpl in *. subst m. apply elem_of_map_range. exact Hin.
  - intros Hm. exists (R, gomatrixserverlib.Join). split; [reflexivity |].
    apply list_elem_of_filter. split; [reflexivity |].
    apply elem_of_map_range. exact Hm.
Qed.

Lemma joined_rooms_NoDup (memberships : gmap string string) :
  NoDup (splitMemberships map_range memberships).2.
Proof.
  rewrite splitMemberships_spec. simpl.
  pose proof (NoDup_map_range memberships) as Hnd.
  induction (map_range _ memberships) as [|[k m] l IH]; [constructor |].
  simpl in Hnd. apply NoDup_cons in Hnd as [Hk Hnd].
  destruct (decide (m = gomatrixserverlib.Join)) as [Hm | Hm].
  - rewrite filter_cons_True by exact Hm. simpl. apply NoDup_cons.
    split; [| auto].
    intros Hin. apply Hk. apply list_elem_of_fmap in Hin as (p & -> & Hp).
    apply list_elem_of_filter in Hp as [_ Hp].
    apply list_elem_of_fmap. eauto.
  - rewrite filter_cons_False by exact Hm. auto.
Qed.

End RangeOrder.

Section FullState.

Variable map_range : forall V : Type, gmap string V -> list (string * V).
Hypothesis map_range_perm :
  forall (V : Type) (m : gmap string V), map_range V m ≡ₚ map_to_list m.

Variable d : DatabaseTransaction.
Variable device : userapi.Device.
Variable r : types.Range.
Variable userID : string.
Variable stateFilter : option gomatrixserverlib.StateFilter.

(** Every pass of the full-state variant files a delta under its own
    room. *)
Lemma addPeekStates_keyed (peeks : list types.Peek)
    (deltas deltas' : gmap string types.StateDelta) :
  map_Forall (fun k δ => types.RoomID δ = k) deltas ->
  addPeekStates d device stateFilter peeks deltas = inl deltas' ->
  map_Forall (fun k δ => types.RoomID δ = k) deltas'.
Proof.
  revert deltas. induction peeks as [|peek rest IH]; intros deltas Hkey Hrun.
  - simpl in Hrun. injection Hrun as <-. exact Hkey.
  - simpl in Hrun. destruct (types.Deleted peek); simpl in Hrun; [eauto |].
    destruct (currentStateStreamEventsForRoom d (types.PeekRoomID peek) stateFilter)
      as [s [e|]].
    + case_bool_decide; [eauto | discriminate].
    + eapply IH; [| exact Hrun]. apply map_Forall_insert_2; [reflexivity | exact Hkey].
Qed.

Lemma scanRoomFull_keyed (roomID : string)
    (stateStreamEvents evs : list types.StreamEvent)
    (deltas : gmap string types.StateDelta) :
  map_Forall (fun k δ => types.RoomID δ = k) deltas ->
  map_Forall (fun k δ => types.RoomID δ = k)
    (scanRoomFull device userID roomID stateStreamEvents evs deltas).
Proof.
  intros Hkey. induction evs as [|ev rest IH]; simpl; [exact Hkey |].
  destruct (getMembershipFromEvent (types.HeaderedEvent ev) userID) as [m p].
  repeat case_bool_decide; auto.
  apply map_Forall_insert_2; [reflexivity | exact Hkey].
Qed.

Lemma classifyRoomsFull_keyed (rooms : list (string * list types.StreamEvent))
    (deltas : gmap string types.StateDelta) :
  map_Forall (fun k δ => types.RoomID δ = k) deltas ->
  map_Forall (fun k δ => types.RoomID δ = k)
    (classifyRoomsFull device userID rooms deltas).
Proof.
  revert deltas. unfold classifyRoomsFull.
  induction rooms as [|[k evs] rest IH]; intros deltas Hkey; simpl; [exact Hkey |].
  apply IH, scanRoomFull_keyed, Hkey.
Qed.

Lemma addJoinedStates_keyed (joinedRoomIDs : list string)
    (deltas deltas' : gmap string types.StateDelta) :
  map_Forall (fun k δ => types.RoomID δ = k) deltas ->
  addJoinedStates d device stateFilter joinedRoomIDs deltas = inl deltas' ->
  map_Forall (fun k δ => types.RoomID δ = k) deltas'.
Proof.
  revert deltas.
  induction joinedRoomIDs as [|k rest IH]; intros deltas Hkey Hrun.
  - simpl in Hrun. injection Hrun as <-. exact Hkey.
  - simpl in Hrun.
    destruct (currentStateStreamEventsForRoom d k stateFilter) as [s [e|]].
    + case_bool_decide; [eauto | discriminate].
    + eapply IH; [| exact Hrun]. apply map_Forall_insert_2; [reflexivity | exact Hkey].
Qed.

(** The last pass has the last word: a joined room whose current state
    was found ends up with its join delta, whatever was there before. *)
Lemma addJoinedStates_lookup (joinedRoomIDs : list string)
    (deltas deltas' : gmap string types.StateDelta)
    (R : string) (s : list types.StreamEvent) :
  currentStateStreamEventsForRoom d R stateFilter = (s, None) ->
  addJoinedStates d device stateFilter joinedRoomIDs deltas = inl deltas' ->
  R ∈ joinedRoomIDs ∨ deltas !! R = Some (fullJoinedDelta device R s) ->
  deltas' !! R = Some (fullJoinedDelta device R s).
Proof.
  intros Hcur. revert deltas.
  induction joinedRoomIDs as [|k rest IH]; intros deltas Hrun Hin.
  - simpl in Hrun. destruct Hin as [Hin | Hin]; [inversion Hin |]. congruence.
  - simpl in Hrun. destruct (decide (k = R)) as [-> | Hne].
    + rewrite Hcur in Hrun. eapply IH; [exact Hrun |].
      right. apply lookup_insert_eq.
    + assert (R ∈ rest ∨ deltas !! R = Some (fullJoinedDelta device R s)) as Hin'.
      { destruct Hin as [Hin | Hin]; [| auto].
        apply elem_of_cons in Hin as [-> | Hin]; [congruence | auto]. }
      destruct (currentStateStreamEventsForRoom d k stateFilter) as [s' [e|]].
      * case_bool_decide; [eauto | discriminate].
      * eapply IH; [exact Hrun |].
        destruct Hin' as [Hin' | Hin']; [auto |].
        right. rewrite lookup_insert_ne by exact Hne. exact Hin'.
Qed.

(** Flattening a map whose deltas sit under their own room. *)
Lemma flattenDeltas_rooms (deltas : gmap string types.StateDelta) :
  map_Forall (fun k δ => types.RoomID δ = k) deltas ->
  NoDup (types.RoomID <$> flattenDeltas map_range deltas).
Proof.
  intros Hkey. unfold flattenDeltas. rewrite room_keys.
  - apply NoDup_map_range, map_range_perm.
  - apply Forall_forall. intros [k δ] Hin. simpl.
    apply (elem_of_map_range map_range map_range_perm) in Hin.
    exact (Hkey k δ Hin).
Qed.

Lemma flattenDeltas_room (deltas : gmap string types.StateDelta)
    (R : string) (δ : types.StateDelta) :
  map_Forall (fun k δ => types.RoomID δ = k) deltas ->
  deltas !! R = Some δ ->
  filter (fun x => types.RoomID x = R) (flattenDeltas map_range deltas) = [δ].
Proof.
  intros Hkey HR. unfold flattenDeltas. apply filter_room_keyed.
  - apply NoDup_map_range, map_range_perm.
  - apply Forall_forall. intros [k x] Hin. simpl.
    apply (elem_of_map_range map_range map_range_perm) in Hin.
    exact (Hkey k x Hin).
  - apply (elem_of_map_range map_range map_range_perm). exact HR.
Qed.

(** C3 (amended).  When full-state sync returns without error, every
    room it reports as joined (the rooms whose latest membership is
    join) and whose current state was found occurs exactly once in the
    result, with membership join and the room's full current state; the
    result as a whole lists no room twice, since deltas are filed in a
    map under their room and later writes replace earlier ones. *)
Theorem GetStateDeltasForFullStateSync_joined_rooms
    (memberships : gmap string string)
    (result : list types.StateDelta) (joinedRoomIDs : list string)
    (R : string) (allState : list gomatrixserverlib.HeaderedEvent) :
  tables.SelectRoomIDsWithAnyMembership (CurrentRoomState d) (txn d) userID
  = (memberships, None) ->
  GetStateDeltasForFullStateSync map_range d device r userID stateFilter
  = (result, joinedRoomIDs, None) ->
  R ∈ joinedRoomIDs ->
  tables.SelectCurrentState (CurrentRoomState d) (txn d) R stateFilter []
  = (allState, None) ->
  memberships !! R = Some gomatrixserverlib.Join
  ∧ filter (fun δ => types.RoomID δ = R) result
    = [ {| types.RoomID := R;
           types.StateEvents := allState;
           types.Membership := gomatrixserverlib.Join;
           types.MembershipPos := 0;
           types.NewlyJoined := false |} ]
  ∧ NoDup (types.RoomID <$> result).
Proof.
  intros Hmem Hrun HR Hcur.
  unfold GetStateDeltasForFullStateSync in Hrun. rewrite Hmem in Hrun.
  destruct (splitMemberships map_range memberships) as [allRoomIDs joined] eqn:Hsplit.
  assert (empty_result : ∀ e : error,
    (if bool_decide (e = ErrNoRows) then noDeltas else failWith e)
    = (result, joinedRoomIDs, None) -> False).
  { intros e. unfold noDeltas, failWith. case_bool_decide; intros [= <- <-];
      inversion HR. }
  destruct (tables.SelectPeeksInRange _ _ _ _ _) as [peeks perr].
  destruct (bool_decide (perr ≠ None) && bool_decide (perr ≠ Some ErrNoRows)).
  { destruct perr; [discriminate | injection Hrun as <- <-; inversion HR]. }
  destruct (addPeekStates _ _ _ _ _) as [deltas1 | e] eqn:Hpeeks;
    [| discriminate].
  destruct (tables.SelectStateInRange _ _ _ _ _) as [[needed emap] [e|]];
    [destruct (empty_result _ Hrun) |].
  destruct (fetchStateEvents _ _ _ _) as [state [e|]];
    [destruct (empty_result _ Hrun) |].
  destruct (addJoinedStates _ _ _ _ _) as [deltas3 | e] eqn:Hjoined;
    [| discriminate].
  injection Hrun as <- <-.
  assert (map_Forall (fun k δ => types.RoomID δ = k) deltas3) as Hkey.
  { eapply addJoinedStates_keyed; [| exact Hjoined].
    apply classifyRoomsFull_keyed.
    eapply addPeekStates_keyed; [| exact Hpeeks].
    apply map_Forall_empty. }
  split; [| split].
  - apply (joined_rooms_spec map_range map_range_perm).
    rewrite Hsplit. exact HR.
  - pose proof (currentStateStreamEventsForRoom_ok _ _ _ _ Hcur) as Hs.
    pose proof (addJoinedStates_lookup _ _ _ _ _ Hs Hjoined (or_introl HR)) as Hlook.
    rewrite (flattenDeltas_room _ _ _ Hkey Hlook).
    unfold fullJoinedDelta. rewrite StreamEventsToEvents_current_state.
    reflexivity.
  - apply flattenDeltas_rooms, Hkey.
Qed.

End FullState.

Section Incremental.

Variable map_range : forall V : Type, gmap string V -> list (string * V).
Hypothesis map_range_perm :
  forall (V : Type) (m : gmap string V), map_range V m ≡ₚ map_to_list m.

Variable d : DatabaseTransaction.
Variable device : userapi.Device.
Variable r : types.Range.
Variable userID : string.
Variable stateFilter : option gomatrixserverlib.StateFilter.

(** What finding a join transition does to the classification state. *)
Lemma scanRoom_join_transition (R : string)
    (stateStreamEvents rest : list types.StreamEvent) (ev : types.StreamEvent)
    (acc : Classified) (s : list types.StreamEvent) :
  joinTransition userID ev ->
  currentStateStreamEventsForRoom d R stateFilter = (s, None) ->
  scanRoom d device userID stateFilter R stateStreamEvents (ev :: rest) acc
  = scanRoom d device userID stateFilter R stateStreamEvents rest
      {| state_ := <[R := s]> (state_ acc);
         newlyJoinedRooms := <[R := true]> (newlyJoinedRooms acc);
         deltas_ := deltas_ acc |}.
Proof.
  intros [Hm Hp] Hcur. simpl.
  destruct (getMembershipFromEvent (types.HeaderedEvent ev) userID) as [m p].
  simpl in Hm, Hp. subst m.
  rewrite bool_decide_eq_true_2 by discriminate.
  rewrite bool_decide_eq_true_2 by reflexivity.
  rewrite bool_decide_eq_true_2 by exact Hp.
  simpl. rewrite Hcur. reflexivity.
Qed.

Lemma scanRoom_not_own (R : string)
    (stateStreamEvents rest : list types.StreamEvent) (ev : types.StreamEvent)
    (acc : Classified) :
  notOwnMembership userID ev ->
  scanRoom d device userID stateFilter R stateStreamEvents (ev :: rest) acc
  = scanRoom d device userID stateFilter R stateStreamEvents rest acc.
Proof.
  unfold notOwnMembership. intros Hm. simpl.
  destruct (getMembershipFromEvent (types.HeaderedEvent ev) userID) as [m p].
  simpl in Hm. subst m. reflexivity.
Qed.

(** Once the room is marked, further join transitions change nothing. *)
Lemma scanRoom_marked (R : string)
    (stateStreamEvents evs : list types.StreamEvent)
    (st : gmap string (list types.StreamEvent)) (nj : gmap string bool)
    (ds : list types.StateDelta) (s : list types.StreamEvent) :
  currentStateStreamEventsForRoom d R stateFilter = (s, None) ->
  Forall (fun ev => notOwnMembership userID ev ∨ joinTransition userID ev) evs ->
  scanRoom d device userID stateFilter R stateStreamEvents evs
    {| state_ := <[R := s]> st; newlyJoinedRooms := <[R := true]> nj;
       deltas_ := ds |}
  = inl {| state_ := <[R := s]> st; newlyJoinedRooms := <[R := true]> nj;
           deltas_ := ds |}.
Proof.
  intros Hcur. induction 1 as [|ev rest [Hev | Hev] _ IH]; [reflexivity | |].
  - rewrite scanRoom_not_own by exact Hev. exact IH.
  - rewrite (scanRoom_join_transition _ _ _ _ _ _ Hev Hcur). simpl.
    rewrite !insert_insert_eq. exact IH.
Qed.

Lemma scanRoom_newly_joined (R : string)
    (stateStreamEvents evs : list types.StreamEvent) (acc : Classified)
    (s : list types.StreamEvent) :
  currentStateStreamEventsForRoom d R stateFilter = (s, None) ->
  Forall (fun ev => notOwnMembership userID ev ∨ joinTransition userID ev) evs ->
  Exists (joinTransition userID) evs ->
  scanRoom d device userID stateFilter R stateStreamEvents evs acc
  = inl {| state_ := <[R := s]> (state_ acc);
           newlyJoinedRooms := <[R := true]> (newlyJoinedRooms acc);
           deltas_ := deltas_ acc |}.
Proof.
  intros Hcur Hall Hex.
  induction Hall as [|ev rest [Hev | Hev] Hall IH]; [inversion Hex | |].
  - rewrite scanRoom_not_own by exact Hev. apply IH.
    apply Exists_cons in Hex as [[Hm _] | Hex]; [| exact Hex].
    unfold notOwnMembership in Hev. rewrite Hev in Hm. discriminate.
  - rewrite (scanRoom_join_transition _ _ _ _ _ _ Hev Hcur).
    apply scanRoom_marked; assumption.
Qed.

(** Scanning one room leaves the other rooms alone and emits deltas for
    the scanned room only. *)
Lemma scanRoom_frame (R' R : string)
    (stateStreamEvents evs : list types.StreamEvent) (acc acc' : Classified) :
  R ≠ R' ->
  scanRoom d device userID stateFilter R' stateStreamEvents evs acc = inl acc' ->
  state_ acc' !! R = state_ acc !! R
  ∧ newlyJoinedRooms acc' !! R = newlyJoinedRooms acc !! R
  ∧ ∃ new, deltas_ acc' = deltas_ acc ++ new
           ∧ Forall (fun δ => types.RoomID δ ≠ R) new.
Proof.
  intros Hne. revert acc.
  induction evs as [|ev rest IH]; intros acc Hrun; simpl in Hrun.
  - injection Hrun as <-. repeat split. exists []. rewrite app_nil_r. auto.
  - destruct (getMembershipFromEvent (types.HeaderedEvent ev) userID) as [m p].
    case_bool_decide; [| eauto].
    destruct (bool_decide (m = gomatrixserverlib.Join) && bool_decide (p ≠ m)).
    + destruct (currentStateStreamEventsForRoom d R' stateFilter) as [s [e|]].
      * case_bool_decide; [eauto | discriminate].
      * apply IH in Hrun as (Hst & Hnj & Hds). simpl in *.
        rewrite lookup_insert_ne in Hst by congruence.
        rewrite lookup_insert_ne in Hnj by congruence. auto.
    + injection Hrun as <-. simpl. repeat split.
      eexists. split; [reflexivity |]. repeat constructor. simpl. congruence.
Qed.

Lemma classifyRooms_frame (rooms : list (string * list types.StreamEvent))
    (R : string) (acc acc' : Classified) :
  R ∉ rooms.*1 ->
  classifyRooms d device userID stateFilter rooms acc = inl acc' ->
  state_ acc' !! R = state_ acc !! R
  ∧ newlyJoinedRooms acc' !! R = newlyJoinedRooms acc !! R
  ∧ ∃ new, deltas_ acc' = deltas_ acc ++ new
           ∧ Forall (fun δ => types.RoomID δ ≠ R) new.
Proof.
  revert acc.
  induction rooms as [|[k evs] rest IH]; intros acc Hout Hrun; simpl in Hrun.
  - injection Hrun as <-. repeat split. exists []. rewrite app_nil_r. auto.
  - rewrite fmap_cons in Hout. apply not_elem_of_cons in Hout as [Hne Hout].
    destruct (scanRoom d device userID stateFilter k evs evs acc)
      as [acc1 | e] eqn:Hscan; [| discriminate].
    apply (scanRoom_frame k R) in Hscan as (Hst1 & Hnj1 & new1 & Hds1 & Hnew1);
      [| exact Hne].
    apply IH in Hrun as (Hst & Hnj & new2 & Hds & Hnew2); [| exact Hout].
    split; [congruence |]. split; [congruence |].
    exists (new1 ++ new2). split.
    + rewrite Hds, Hds1, app_assoc. reflexivity.
    + apply Forall_app. auto.
Qed.

Lemma classifyRooms_newly_joined (rooms : list (string * list types.StreamEvent))
    (R : string) (evs s : list types.StreamEvent) (acc acc' : Classified) :
  NoDup rooms.*1 ->
  (R, evs) ∈ rooms ->
  currentStateStreamEventsForRoom d R stateFilter = (s, None) ->
  Forall (fun ev => notOwnMembership userID ev ∨ joinTransition userID ev) evs ->
  Exists (joinTransition userID) evs ->
  classifyRooms d device userID stateFilter rooms acc = inl acc' ->
  state_ acc' !! R = Some s
  ∧ newlyJoinedRooms acc' !! R = Some true
  ∧ ∃ new, deltas_ acc' = deltas_ acc ++ new
           ∧ Forall (fun δ => types.RoomID δ ≠ R) new.
Proof.
  intros Hnd Hin Hcur Hall Hex. revert acc.
  induction rooms as [|[k evs'] rest IH]; intros acc Hrun; [inversion Hin |].
  rewrite fmap_cons in Hnd. apply NoDup_cons in Hnd as [Hk Hnd]. simpl in Hk.
  simpl in Hrun. apply elem_of_cons in Hin as [Heq | Hin].
  - injection Heq as <- <-.
    rewrite (scanRoom_newly_joined _ _ _ _ _ Hcur Hall Hex) in Hrun.
    apply (classifyRooms_frame _ R) in Hrun as (Hst & Hnj & Hds); [| exact Hk].
    simpl in *. rewrite lookup_insert_eq in Hst.
    rewrite lookup_insert_eq in Hnj. auto.
  - assert (R ≠ k) as Hne.
    { intros ->. apply Hk. apply list_elem_of_fmap. exists (k, evs). auto. }
    destruct (scanRoom d device userID stateFilter k evs' evs' acc)
      as [acc1 | e] eqn:Hscan; [| discriminate].
    apply (scanRoom_frame k R) in Hscan as (Hst1 & Hnj1 & new1 & Hds1 & Hnew1);
      [| exact Hne].
    destruct (IH Hnd Hin acc1 Hrun) as (Hst & Hnj & new2 & Hds & Hnew2).
    split; [exact Hst |]. split; [exact Hnj |].
    exists (new1 ++ new2). split.
    + rewrite Hds, Hds1, app_assoc. reflexivity.
    + apply Forall_app. auto.
Qed.

(** The last pass appends one join delta per joined room. *)
Lemma addJoinedRooms_spec (joinedRoomIDs : list string) (acc : Classified) :
  addJoinedRooms device joinedRoomIDs acc
  = deltas_ acc ++ (joinedDelta device acc <$> joinedRoomIDs).
Proof.
  unfold addJoinedRooms. generalize (deltas_ acc) as ds.
  induction joinedRoomIDs as [|k rest IH]; intros ds; simpl.
  - rewrite app_nil_r. reflexivity.
  - rewrite IH, <- app_assoc. reflexivity.
Qed.

Lemma filter_joined_deltas (joinedRoomIDs : list string) (acc : Classified)
    (R : string) :
  NoDup joinedRoomIDs ->
  R ∈ joinedRoomIDs ->
  filter (fun δ => types.RoomID δ = R) (joinedDelta device acc <$> joinedRoomIDs)
  = [joinedDelta device acc R].
Proof.
  intros Hnd Hin.
  pose proof (filter_room_keyed
                ((fun k => (k, joinedDelta device acc k)) <$> joinedRoomIDs)
                R (joinedDelta device acc R)) as Hfilter.
  rewrite <- !list_fmap_compose in Hfilter.
  assert ((fst ∘ (fun k => (k, joinedDelta device acc k))) <$> joinedRoomIDs
          = joinedRoomIDs) as Hfst.
  { clear. induction joinedRoomIDs as [|k l IH]; [reflexivity |].
    rewrite fmap_cons, IH. reflexivity. }
  rewrite Hfst in Hfilter. apply Hfilter.
  - exact Hnd.
  - apply Forall_fmap, Forall_forall. intros k _. reflexivity.
  - apply list_elem_of_fmap. exists R. auto.
Qed.

(** C1 (amended).  Take an incremental sync that gets through its
    queries, and a room that is currently joined, whose current state is
    found, and whose entry in [state] at the start of the classification
    holds a join transition of the user and no membership event of the
    user of any other kind.  Then the classification marks the room as
    newly joined, replaces its state by the full current state at stream
    position zero and emits no delta for it, and the joined-rooms pass
    emits exactly one delta for it: membership join, newly joined, with
    the full current state. *)
Theorem GetStateDeltas_newly_joined
    (memberships : gmap string string)
    (stateNeeded : gmap string (gmap string bool))
    (eventMap : gmap string types.StreamEvent)
    (state state1 : gmap string (list types.StreamEvent))
    (peeks : list types.Peek) (peeksErr : option error)
    (deltas1 : list types.StateDelta) (acc : Classified)
    (R : string) (evs : list types.StreamEvent)
    (allState : list gomatrixserverlib.HeaderedEvent) :
  tables.SelectRoomIDsWithAnyMembership (CurrentRoomState d) (txn d) userID
  = (memberships, None) ->
  tables.SelectStateInRange (OutputEvents d) (txn d) r stateFilter
    (splitMemberships map_range memberships).1
  = (stateNeeded, eventMap, None) ->
  fetchStateEvents d (txn d) stateNeeded eventMap = (state, None) ->
  tables.SelectPeeksInRange (Peeks d) (txn d) userID (userapi.ID device) r
  = (peeks, peeksErr) ->
  peeksErr = None ∨ peeksErr = Some ErrNoRows ->
  addPeekBlocks d device stateFilter peeks state [] = inl (state1, deltas1) ->
  classifyRooms d device userID stateFilter (map_range _ state1)
    {| state_ := state1; newlyJoinedRooms := ∅; deltas_ := deltas1 |}
  = inl acc ->
  memberships !! R = Some gomatrixserverlib.Join ->
  state1 !! R = Some evs ->
  Forall (fun ev => notOwnMembership userID ev ∨ joinTransition userID ev) evs ->
  Exists (joinTransition userID) evs ->
  tables.SelectCurrentState (CurrentRoomState d) (txn d) R stateFilter []
  = (allState, None) ->
  newlyJoinedRooms acc !! R = Some true
  ∧ state_ acc !! R = Some (atPositionZero allState)
  ∧ (∃ new, deltas_ acc = deltas1 ++ new
            ∧ Forall (fun δ => types.RoomID δ ≠ R) new)
  ∧ GetStateDeltas map_range d device r userID stateFilter
    = (deltas_ acc
       ++ (joinedDelta device acc <$> (splitMemberships map_range memberships).2),
       (splitMemberships map_range memberships).2, None)
  ∧ filter (fun δ => types.RoomID δ = R)
      (joinedDelta device acc <$> (splitMemberships map_range memberships).2)
    = [ {| types.RoomID := R;
           types.StateEvents := allState;
           types.Membership := gomatrixserverlib.Join;
           types.MembershipPos := 0;
           types.NewlyJoined := true |} ].
Proof.
  intros Hmem Hrange Hfetch Hpeeks Hperr Hblocks Hclass HR Hevs Hall Hex Hcur.
  pose proof (currentStateStreamEventsForRoom_ok _ _ _ _ Hcur) as Hs.
  assert ((R, evs) ∈ map_range _ state1) as Hin
    by (apply (elem_of_map_range map_range map_range_perm); exact Hevs).
  destruct (classifyRooms_newly_joined _ _ _ _ _ _
              (NoDup_map_range map_range map_range_perm state1)
              Hin Hs Hall Hex Hclass) as (Hst & Hnj & Hds).
  split; [exact Hnj |]. split; [exact Hst |]. split; [exact Hds |]. split.
  - unfold GetStateDeltas. rewrite Hmem.
    destruct (splitMemberships map_range memberships) as [allRoomIDs joined].
    simpl in *. rewrite Hrange, Hfetch, Hpeeks.
    assert (bool_decide (peeksErr ≠ None)
            && bool_decide (peeksErr ≠ Some ErrNoRows) = false) as ->.
    { destruct Hperr as [-> | ->]; reflexivity. }
    rewrite Hblocks, Hclass, addJoinedRooms_spec. reflexivity.
  - rewrite filter_joined_deltas.
    + unfold joinedDelta, stateAt, flagAt. rewrite Hst, Hnj. simpl.
      unfold atPositionZero. rewrite StreamEventsToEvents_current_state.
      reflexivity.
    + apply joined_rooms_NoDup, map_range_perm.
    + apply (joined_rooms_spec map_range map_range_perm). exact HR.
Qed.

End Incremental.

(** *** The properties on concrete snapshots *)

Lemma keyOrder_perm (V : Type) (m : gmap string V) :
  keyOrder V m ≡ₚ map_to_list m.
Proof. reflexivity. Qed.

Lemma GetStateDeltas_newly_joined_witness :
  let name := memory.nameEvent "$name" "!room" in
  let join := memory.memberEvent "$join" "!room" "join" "leave" in
  let evs := [memory.streamed 4 name; memory.streamed 5 join] in
  let acc :=
    {| state_ := {["!room" := atPositionZero [name; join]]};
       newlyJoinedRooms := {["!room" := true]};
       deltas_ := [] |} in
  newlyJoinedRooms acc !! "!room" = Some true
  ∧ state_ acc !! "!room" = Some (atPositionZero [name; join])
  ∧ (∃ new, deltas_ acc = [] ++ new
            ∧ Forall (fun δ => types.RoomID δ ≠ "!room") new)
  ∧ GetStateDeltas keyOrder memory.newlyJoined memory.phone memory.window
      memory.alice None
    = (deltas_ acc
       ++ (joinedDelta memory.phone acc
             <$> (splitMemberships keyOrder {["!room" := "join"]}).2),
       (splitMemberships keyOrder {["!room" := "join"]}).2, None)
  ∧ filter (fun δ => types.RoomID δ = "!room")
      (joinedDelta memory.phone acc
         <$> (splitMemberships keyOrder {["!room" := "join"]}).2)
    = [ {| types.RoomID := "!room";
           types.StateEvents := [name; join];
           types.Membership := gomatrixserverlib.Join;
           types.MembershipPos := 0;
           types.NewlyJoined := true |} ].
Proof.
  intros name join evs acc.
  apply (GetStateDeltas_newly_joined keyOrder keyOrder_perm
           memory.newlyJoined memory.phone memory.window memory.alice None
           {["!room" := "join"]} ∅ ∅
           {["!room" := evs]} {["!room" := evs]} [] None [] acc
           "!room" evs [name; join]).
  - reflexivity.
  - reflexivity.
  - reflexivity.
  - reflexivity.
  - left. reflexivity.
  - reflexivity.
  - vm_compute. reflexivity.
  - reflexivity.
  - reflexivity.
  - apply Forall_cons. split; [left; reflexivity |].
    apply Forall_cons. split; [| apply Forall_nil_2].
    right. split; [reflexivity | discriminate].
  - apply Exists_cons_tl, Exists_cons_hd. split; [reflexivity | discriminate].
  - reflexivity.
Defined.

(** C1, as stated, fails.  In [joinedThenLeft] the first membership
    event found for the user is a join after leave, and the room is
    marked newly joined; yet the scan goes on to the leave that follows,
    so the classification emits a delta for the room, and the
    joined-rooms pass emits none because the room is not joined any
    more.  In [joinedStateMissing] the current state has no rows: the
    room is not marked and its join delta carries the events of the
    window. *)
Lemma GetStateDeltas_newly_joined_counterexample :
  let join := memory.memberEvent "$join" "!room" "join" "leave" in
  let leave := memory.memberEvent "$leave" "!room" "leave" "join" in
  let evs := [memory.streamed 5 join; memory.streamed 7 leave] in
  let leaveDelta :=
    {| types.RoomID := "!room";
       types.StateEvents := [join; leave];
       types.Membership := "leave";
       types.MembershipPos := 7;
       types.NewlyJoined := false |} in
  joinTransition memory.alice (memory.streamed 5 join)
  ∧ (∃ acc,
       classifyRooms memory.joinedThenLeft memory.phone memory.alice None
         (keyOrder _ {["!room" := evs]})
         {| state_ := {["!room" := evs]}; newlyJoinedRooms := ∅; deltas_ := [] |}
       = inl acc
       ∧ newlyJoinedRooms acc !! "!room" = Some true
       ∧ deltas_ acc = [leaveDelta])
  ∧ GetStateDeltas keyOrder memory.joinedThenLeft memory.phone memory.window
      memory.alice None
    = ([leaveDelta], [], None)
  ∧ GetStateDeltas keyOrder memory.joinedStateMissing memory.phone memory.window
      memory.alice None
    = ([ {| types.RoomID := "!room";
            types.StateEvents := [join];
            types.Membership := "join";
            types.MembershipPos := 0;
            types.NewlyJoined := false |} ],
       ["!room"], None).
Proof.
  intros join leave evs leaveDelta.
  split; [split; [reflexivity | discriminate] |].
  split; [eexists; split; [vm_compute; reflexivity | split; reflexivity] |].
  split; vm_compute; reflexivity.
Qed.

(** C2 fails on the code.  A member who changes her display name in the
    window gets two deltas for the room, one from the classification
    and one from the joined-rooms pass; a member whose device also holds
    a live peek on the room gets a peek delta and a join delta.  Deltas
    are appended to a slice, so nothing written earlier is replaced. *)
Theorem GetStateDeltas_room_listed_twice :
  (let deltas :=
     (GetStateDeltas keyOrder memory.profileChanged memory.phone memory.window
        memory.alice None).1.1 in
   types.RoomID <$> deltas = ["!room"; "!room"]
   ∧ types.Membership <$> deltas = ["join"; "join"]
   ∧ ¬ NoDup (types.RoomID <$> deltas))
  ∧ (let deltas :=
       (GetStateDeltas keyOrder memory.peekedAndJoined memory.phone memory.window
          memory.alice None).1.1 in
     types.RoomID <$> deltas = ["!room"; "!room"]
     ∧ types.Membership <$> deltas = ["peek"; "join"]
     ∧ ¬ NoDup (types.RoomID <$> deltas)).
Proof.
  split; (split; [vm_compute; reflexivity |]);
    (split; [vm_compute; reflexivity |]).
  - intros Hnd. vm_compute in Hnd. apply NoDup_cons in Hnd as [Hnot _].
    apply Hnot. left.
  - intros Hnd. vm_compute in Hnd. apply NoDup_cons in Hnd as [Hnot _].
    apply Hnot. left.
Qed.

Lemma GetStateDeltasForFullStateSync_joined_rooms_witness :
  let name := memory.nameEvent "$name" "!room" in
  let join := memory.memberEvent "$join" "!room" "join" "leave" in
  let joinDelta :=
    {| types.RoomID := "!room";
       types.StateEvents := [name; join];
       types.Membership := gomatrixserverlib.Join;
       types.MembershipPos := 0;
       types.NewlyJoined := false |} in
  ({["!room" := "join"]} : gmap string string) !! "!room"
  = Some gomatrixserverlib.Join
  ∧ filter (fun δ => types.RoomID δ = "!room") [joinDelta] = [joinDelta]
  ∧ NoDup (types.RoomID <$> [joinDelta]).
Proof.
  intros name join joinDelta.
  apply (GetStateDeltasForFullStateSync_joined_rooms keyOrder keyOrder_perm
           memory.newlyJoined memory.phone memory.window memory.alice None
           {["!room" := "join"]} [joinDelta] ["!room"] "!room" [name; join]).
  - reflexivity.
  - vm_compute. reflexivity.
  - left.
  - reflexivity.
Defined.

(** C3, as stated, fails.  In [joinedStateMissing] the room is joined
    and is returned among the joined rooms, but its current state has no
    rows: the room is skipped and the result holds no delta for it. *)
Lemma GetStateDeltasForFullStateSync_joined_rooms_counterexample :
  GetStateDeltasForFullStateSync keyOrder memory.joinedStateMissing
    memory.phone memory.window memory.alice None
  = ([], ["!room"], None).
Proof. vm_compute. reflexivity. Qed.

(** *** Not found *)

Section NotFound.

Variable map_range : forall V : Type, gmap string V -> list (string * V).
Variable d : DatabaseTransaction.
Variable device : userapi.Device.
Variable r : types.Range.
Variable userID : string.
Variable stateFilter : option gomatrixserverlib.StateFilter.

Lemma absorbsNotFound_intro (e : error) :
  absorbsNotFound e
    (if bool_decide (e = ErrNoRows) then noDeltas else failWith e).
Proof.
  split; intros He.
  - rewrite bool_decide_eq_true_2 by exact He. reflexivity.
  - rewrite bool_decide_eq_false_2 by exact He. reflexivity.
Qed.

(** The per-room loops never give out [ErrNoRows]. *)
Lemma addPeekBlocks_error (peeks : list types.Peek)
    (state : gmap string (list types.StreamEvent))
    (deltas : list types.StateDelta) (e : error) :
  addPeekBlocks d device stateFilter peeks state deltas = inr e ->
  e ≠ ErrNoRows.
Proof.
  revert state deltas.
  induction peeks as [|peek rest IH]; intros state deltas Hrun; simpl in Hrun;
    [discriminate |].
  destruct (types.New peek); [| eauto].
  destruct (currentStateStreamEventsForRoom d (types.PeekRoomID peek) stateFilter)
    as [s [e'|]]; [| eauto].
  case_bool_decide; [eauto | congruence].
Qed.

Lemma scanRoom_error (roomID : string)
    (stateStreamEvents evs : list types.StreamEvent) (acc : Classified)
    (e : error) :
  scanRoom d device userID stateFilter roomID stateStreamEvents evs acc = inr e ->
  e ≠ ErrNoRows.
Proof.
  revert acc. induction evs as [|ev rest IH]; intros acc Hrun; simpl in Hrun;
    [discriminate |].
  destruct (getMembershipFromEvent (types.HeaderedEvent ev) userID) as [m p].
  case_bool_decide; [| eauto].
  destruct (bool_decide (m = gomatrixserverlib.Join) && bool_decide (p ≠ m));
    [| discriminate].
  destruct (currentStateStreamEventsForRoom d roomID stateFilter) as [s [e'|]];
    [| eauto].
  case_bool_decide; [eauto | congruence].
Qed.

Lemma classifyRooms_error (rooms : list (string * list types.StreamEvent))
    (acc : Classified) (e : error) :
  classifyRooms d device userID stateFilter rooms acc = inr e ->
  e ≠ ErrNoRows.
Proof.
  revert acc. induction rooms as [|[k evs] rest IH]; intros acc Hrun;
    simpl in Hrun; [discriminate |].
  destruct (scanRoom d device userID stateFilter k evs evs acc)
    as [acc1 | e'] eqn:Hscan; [eauto |].
  injection Hrun as <-. eapply scanRoom_error, Hscan.
Qed.

Lemma addPeekStates_error (peeks : list types.Peek)
    (deltas : gmap string types.StateDelta) (e : error) :
  addPeekStates d device stateFilter peeks deltas = inr e ->
  e ≠ ErrNoRows.
Proof.
  revert deltas. induction peeks as [|peek rest IH]; intros deltas Hrun;
    simpl in Hrun; [discriminate |].
  destruct (types.Deleted peek); simpl in Hrun; [eauto |].
  destruct (currentStateStreamEventsForRoom d (types.PeekRoomID peek) stateFilter)
    as [s [e'|]]; [| eauto].
  case_bool_decide; [eauto | congruence].
Qed.

Lemma addJoinedStates_error (joinedRoomIDs : list string)
    (deltas : gmap string types.StateDelta) (e : error) :
  addJoinedStates d device stateFilter joinedRoomIDs deltas = inr e ->
  e ≠ ErrNoRows.
Proof.
  revert deltas. induction joinedRoomIDs as [|k rest IH]; intros deltas Hrun;
    simpl in Hrun; [discriminate |].
  destruct (currentStateStreamEventsForRoom d k stateFilter) as [s [e'|]];
    [| eauto].
  case_bool_decide; [eauto | congruence].
Qed.

(** One step of each per-room loop, when the room's current state
    cannot be read. *)
Lemma addPeekBlocks_lookup_error (peek : types.Peek) (rest : list types.Peek)
    (state : gmap string (list types.StreamEvent))
    (deltas : list types.StateDelta)
    (allState : list gomatrixserverlib.HeaderedEvent) (e : error) :
  types.New peek = true ->
  tables.SelectCurrentState (CurrentRoomState d) (txn d)
    (types.PeekRoomID peek) stateFilter [] = (allState, Some e) ->
  (e = ErrNoRows ->
     addPeekBlocks d device stateFilter (peek :: rest) state deltas
     = addPeekBlocks d device stateFilter rest state deltas)
  ∧ (e ≠ ErrNoRows ->
     addPeekBlocks d device stateFilter (peek :: rest) state deltas = inr e).
Proof.
  intros Hnew Hcur. simpl. rewrite Hnew.
  rewrite (currentStateStreamEventsForRoom_error _ _ _ _ _ Hcur).
  split; intros He.
  - rewrite bool_decide_eq_true_2 by exact He. reflexivity.
  - rewrite bool_decide_eq_false_2 by exact He. reflexivity.
Qed.

Lemma scanRoom_lookup_error (roomID : string)
    (stateStreamEvents rest : list types.StreamEvent) (ev : types.StreamEvent)
    (acc : Classified)
    (allState : list gomatrixserverlib.HeaderedEvent) (e : error) :
  joinTransition userID ev ->
  tables.SelectCurrentState (CurrentRoomState d) (txn d) roomID stateFilter []
  = (allState, Some e) ->
  (e = ErrNoRows ->
     scanRoom d device userID stateFilter roomID stateStreamEvents (ev :: rest) acc
     = scanRoom d device userID stateFilter roomID stateStreamEvents rest acc)
  ∧ (e ≠ ErrNoRows ->
     scanRoom d device userID stateFilter roomID stateStreamEvents (ev :: rest) acc
     = inr e).
Proof.
  intros [Hm Hp] Hcur. simpl.
  destruct (getMembershipFromEvent (types.HeaderedEvent ev) userID) as [m p].
  simpl in Hm, Hp. subst m.
  rewrite bool_decide_eq_true_2 by discriminate.
  rewrite bool_decide_eq_true_2 by reflexivity.
  rewrite bool_decide_eq_true_2 by exact Hp. simpl.
  rewrite (currentStateStreamEventsForRoom_error _ _ _ _ _ Hcur).
  split; intros He.
  - rewrite bool_decide_eq_true_2 by exact He. reflexivity.
  - rewrite bool_decide_eq_false_2 by exact He. reflexivity.
Qed.

Lemma addPeekStates_lookup_error (peek : types.Peek) (rest : list types.Peek)
    (deltas : gmap string types.StateDelta)
    (allState : list gomatrixserverlib.HeaderedEvent) (e : error) :
  types.Deleted peek = false ->
  tables.SelectCurrentState (CurrentRoomState d) (txn d)
    (types.PeekRoomID peek) stateFilter [] = (allState, Some e) ->
  (e = ErrNoRows ->
     addPeekStates d device stateFilter (peek :: rest) deltas
     = addPeekStates d device stateFilter rest deltas)
  ∧ (e ≠ ErrNoRows ->
     addPeekStates d device stateFilter (peek :: rest) deltas = inr e).
Proof.
  intros Hlive Hcur. simpl. rewrite Hlive. simpl.
  rewrite (currentStateStreamEventsForRoom_error _ _ _ _ _ Hcur).
  split; intros He.
  - rewrite bool_decide_eq_true_2 by exact He. reflexivity.
  - rewrite bool_decide_eq_false_2 by exact He. reflexivity.
Qed.

Lemma addJoinedStates_lookup_error (joinedRoomID : string) (rest : list string)
    (deltas : gmap string types.StateDelta)
    (allState : list gomatrixserverlib.HeaderedEvent) (e : error) :
  tables.SelectCurrentState (CurrentRoomState d) (txn d)
    joinedRoomID stateFilter [] = (allState, Some e) ->
  (e = ErrNoRows ->
     addJoinedStates d device stateFilter (joinedRoomID :: rest) deltas
     = addJoinedStates d device stateFilter rest deltas)
  ∧ (e ≠ ErrNoRows ->
     addJoinedStates d device stateFilter (joinedRoomID :: rest) deltas = inr e).
Proof.
  intros Hcur. simpl.
  rewrite (currentStateStreamEventsForRoom_error _ _ _ _ _ Hcur).
  split; intros He.
  - rewrite bool_decide_eq_true_2 by exact He. reflexivity.
  - rewrite bool_decide_eq_false_2 by exact He. reflexivity.
Qed.

(** A failing scan of one room ends the classification. *)
Lemma classifyRooms_scan_error (roomID : string)
    (stateStreamEvents : list types.StreamEvent)
    (rest : list (string * list types.StreamEvent)) (acc : Classified)
    (e : error) :
  scanRoom d device userID stateFilter roomID stateStreamEvents
    stateStreamEvents acc = inr e ->
  classifyRooms d device userID stateFilter
    ((roomID, stateStreamEvents) :: rest) acc = inr e.
Proof. intros Hscan. simpl. rewrite Hscan. reflexivity. Qed.

(** C7 (amended).  Both delta engines give up with no deltas and no
    error when the membership lookup or a state-in-range query reports
    no rows, and return every other error of these queries, of the peek
    lookup and of the per-room loops to the caller.  A current-state
    lookup that reports no rows makes the loop step over the entry that
    asked for it and carry on with the rest, state and deltas untouched:
    the peek in the peek loops, the joined room in full-state sync, and
    in the classification of incremental sync the membership event, the
    scan going on with the later events of the same room.  Any other
    error of such a lookup ends the loop, and no loop ever gives out the
    no-rows error. *)
Theorem delta_engine_not_found_policy
    (memberships : gmap string string) (membershipsErr : option error) :
  tables.SelectRoomIDsWithAnyMembership (CurrentRoomState d) (txn d) userID
  = (memberships, membershipsErr) ->
  let incremental := GetStateDeltas map_range d device r userID stateFilter in
  let fullState :=
    GetStateDeltasForFullStateSync map_range d device r userID stateFilter in
  let allRoomIDs := (splitMemberships map_range memberships).1 in
  let joinedRoomIDs := (splitMemberships map_range memberships).2 in
  (* the membership lookup *)
  (∀ e, membershipsErr = Some e ->
     absorbsNotFound e incremental ∧ absorbsNotFound e fullState)
  (* incremental sync, stage by stage *)
  ∧ (membershipsErr = None ->
     ∀ stateNeeded eventMap rangeErr,
       tables.SelectStateInRange (OutputEvents d) (txn d) r stateFilter allRoomIDs
       = (stateNeeded, eventMap, rangeErr) ->
       (∀ e, rangeErr = Some e -> absorbsNotFound e incremental)
       ∧ (rangeErr = None ->
          ∀ state fetchErr,
            fetchStateEvents d (txn d) stateNeeded eventMap = (state, fetchErr) ->
            (∀ e, fetchErr = Some e -> absorbsNotFound e incremental)
            ∧ (fetchErr = None ->
               ∀ peeks peeksErr,
                 tables.SelectPeeksInRange (Peeks d) (txn d) userID
                   (userapi.ID device) r = (peeks, peeksErr) ->
                 (∀ e, peeksErr = Some e -> e ≠ ErrNoRows ->
                    incremental = failWith e)
                 ∧ (peeksErr = None ∨ peeksErr = Some ErrNoRows ->
                    (∀ e, addPeekBlocks d device stateFilter peeks state [] = inr e ->
                       incremental = failWith e)
                    ∧ (∀ state1 deltas1,
                         addPeekBlocks d device stateFilter peeks state []
                         = inl (state1, deltas1) ->
                         (∀ e,
                            classifyRooms d device userID stateFilter
                              (map_range _ state1)
                              {| state_ := state1; newlyJoinedRooms := ∅;
                                 deltas_ := deltas1 |} = inr e ->
                            incremental = failWith e)
                         ∧ (∀ acc,
                              classifyRooms d device userID stateFilter
                                (map_range _ state1)
                                {| state_ := state1; newlyJoinedRooms := ∅;
                                   deltas_ := deltas1 |} = inl acc ->
                              incremental
                              = (addJoinedRooms device joinedRoomIDs acc,
                                 joinedRoomIDs, None)))))))
  (* full-state sync, stage by stage *)
  ∧ (membershipsErr = None ->
     ∀ peeks peeksErr,
       tables.SelectPeeksInRange (Peeks d) (txn d) userID (userapi.ID device) r
       = (peeks, peeksErr) ->
       (∀ e, peeksErr = Some e -> e ≠ ErrNoRows -> fullState = failWith e)
       ∧ (peeksErr = None ∨ peeksErr = Some ErrNoRows ->
          (∀ e, addPeekStates d device stateFilter peeks ∅ = inr e ->
             fullState = failWith e)
          ∧ (∀ deltas1,
               addPeekStates d device stateFilter peeks ∅ = inl deltas1 ->
               ∀ stateNeeded eventMap rangeErr,
                 tables.SelectStateInRange (OutputEvents d) (txn d) r stateFilter
                   allRoomIDs = (stateNeeded, eventMap, rangeErr) ->
                 (∀ e, rangeErr = Some e -> absorbsNotFound e fullState)
                 ∧ (rangeErr = None ->
                    ∀ state fetchErr,
                      fetchStateEvents d (txn d) stateNeeded eventMap
                      = (state, fetchErr) ->
                      (∀ e, fetchErr = Some e -> absorbsNotFound e fullState)
                      ∧ (fetchErr = None ->
                         (∀ e,
                            addJoinedStates d device stateFilter joinedRoomIDs
                              (classifyRoomsFull device userID
                                 (map_range _ state) deltas1) = inr e ->
                            fullState = failWith e)
                         ∧ (∀ deltas3,
                              addJoinedStates d device stateFilter joinedRoomIDs
                                (classifyRoomsFull device userID
                                   (map_range _ state) deltas1) = inl deltas3 ->
                              fullState
                              = (flattenDeltas map_range deltas3,
                                 joinedRoomIDs, None)))))))
  (* one room whose current state cannot be read *)
  ∧ (∀ R allState e,
       tables.SelectCurrentState (CurrentRoomState d) (txn d) R stateFilter []
       = (allState, Some e) ->
       (∀ peek rest state deltas,
          types.PeekRoomID peek = R -> types.New peek = true ->
          (e = ErrNoRows ->
             addPeekBlocks d device stateFilter (peek :: rest) state deltas
             = addPeekBlocks d device stateFilter rest state deltas)
          ∧ (e ≠ ErrNoRows ->
             addPeekBlocks d device stateFilter (peek :: rest) state deltas
             = inr e))
       ∧ (∀ stateStreamEvents ev rest acc,
            joinTransition userID ev ->
            (e = ErrNoRows ->
               scanRoom d device userID stateFilter R stateStreamEvents
                 (ev :: rest) acc
               = scanRoom d device userID stateFilter R stateStreamEvents rest acc)
            ∧ (e ≠ ErrNoRows ->
               scanRoom d device userID stateFilter R stateStreamEvents
                 (ev :: rest) acc = inr e
               ∧ ∀ others,
                   classifyRooms d device userID stateFilter
                     ((R, ev :: rest) :: others) acc = inr e))
       ∧ (∀ peek rest deltas,
            types.PeekRoomID peek = R -> types.Deleted peek = false ->
            (e = ErrNoRows ->
               addPeekStates d device stateFilter (peek :: rest) deltas
               = addPeekStates d device stateFilter rest deltas)
            ∧ (e ≠ ErrNoRows ->
               addPeekStates d device stateFilter (peek :: rest) deltas = inr e))
       ∧ (∀ rest deltas,
            (e = ErrNoRows ->
               addJoinedStates d device stateFilter (R :: rest) deltas
               = addJoinedStates d device stateFilter rest deltas)
            ∧ (e ≠ ErrNoRows ->
               addJoinedStates d device stateFilter (R :: rest) deltas = inr e)))
  (* the loops keep the no-rows error to themselves *)
  ∧ (∀ e,
       (∀ peeks state deltas,
          addPeekBlocks d device stateFilter peeks state deltas = inr e ->
          e ≠ ErrNoRows)
       ∧ (∀ rooms acc,
            classifyRooms d device userID stateFilter rooms acc = inr e ->
            e ≠ ErrNoRows)
       ∧ (∀ peeks deltas,
            addPeekStates d device stateFilter peeks deltas = inr e ->
            e ≠ ErrNoRows)
       ∧ (∀ joined deltas,
            addJoinedStates d device stateFilter joined deltas = inr e ->
            e ≠ ErrNoRows)).
Proof.
  intros Hmem incremental fullState allRoomIDs joinedRoomIDs.
  subst incremental fullState allRoomIDs joinedRoomIDs.
  unfold GetStateDeltas, GetStateDeltasForFullStateSync. rewrite Hmem.
  destruct (splitMemberships map_range memberships) as [allRoomIDs joinedRoomIDs].
  simpl fst. simpl snd.
  split; [| split; [| split; [| split]]].
  - intros e ->. split; apply absorbsNotFound_intro.
  - intros ->. intros stateNeeded eventMap rangeErr ->.
    split; [intros e ->; apply absorbsNotFound_intro |].
    intros ->. intros state fetchErr ->.
    split; [intros e ->; apply absorbsNotFound_intro |].
    intros ->. intros peeks peeksErr ->.
    split.
    { intros e -> He.
      rewrite bool_decide_eq_true_2 by discriminate.
      rewrite bool_decide_eq_true_2 by congruence. reflexivity. }
    intros Hperr.
    assert (bool_decide (peeksErr ≠ None)
            && bool_decide (peeksErr ≠ Some ErrNoRows) = false) as ->.
    { destruct Hperr as [-> | ->]; reflexivity. }
    split; [intros e ->; reflexivity |].
    intros state1 deltas1 ->.
    split; [intros e ->; reflexivity | intros acc ->; reflexivity].
  - intros ->. intros peeks peeksErr ->.
    split.
    { intros e -> He.
      rewrite bool_decide_eq_true_2 by discriminate.
      rewrite bool_decide_eq_true_2 by congruence. reflexivity. }
    intros Hperr.
    assert (bool_decide (peeksErr ≠ None)
            && bool_decide (peeksErr ≠ Some ErrNoRows) = false) as ->.
    { destruct Hperr as [-> | ->]; reflexivity. }
    split; [intros e ->; reflexivity |].
    intros deltas1 ->. intros stateNeeded eventMap rangeErr ->.
    split; [intros e ->; apply absorbsNotFound_intro |].
    intros ->. intros state fetchErr ->.
    split; [intros e ->; apply absorbsNotFound_intro |].
    intros ->.
    split; [intros e ->; reflexivity | intros deltas3 ->; reflexivity].
  - intros R allState e Hcur. split; [| split; [| split]].
    + intros peek rest state deltas <- Hnew.
      apply (addPeekBlocks_lookup_error _ _ _ _ _ _ Hnew Hcur).
    + intros stateStreamEvents ev rest acc Hev.
      destruct (scanRoom_lookup_error R stateStreamEvents rest ev acc _ _ Hev Hcur)
        as [Hskip Hfail].
      split; [exact Hskip |].
      intros He. split; [exact (Hfail He) |].
      intros others. apply classifyRooms_scan_error.
      apply (scanRoom_lookup_error R (ev :: rest) rest ev acc _ _ Hev Hcur), He.
    + intros peek rest deltas <- Hlive.
      apply (addPeekStates_lookup_error _ _ _ _ _ Hlive Hcur).
    + intros rest deltas. apply (addJoinedStates_lookup_error _ _ _ _ _ Hcur).
  - intros e. split; [| split; [| split]].
    + intros peeks state deltas. apply addPeekBlocks_error.
    + intros rooms acc. apply classifyRooms_error.
    + intros peeks deltas. apply addPeekStates_error.
    + intros joined deltas. apply addJoinedStates_error.
Qed.

End NotFound.

Lemma delta_engine_not_found_policy_witness :
  GetStateDeltas keyOrder memory.membershipsMissing memory.phone memory.window
    memory.alice None = ([], [], None)
  ∧ GetStateDeltasForFullStateSync keyOrder memory.membershipsMissing
      memory.phone memory.window memory.alice None = ([], [], None)
  ∧ addJoinedStates memory.joinedStateMissing memory.phone None
      ["!room"; "!other"] ∅
    = addJoinedStates memory.joinedStateMissing memory.phone None ["!other"] ∅.
Proof.
  destruct (delta_engine_not_found_policy keyOrder memory.membershipsMissing
              memory.phone memory.window memory.alice None
              ∅ (Some ErrNoRows) eq_refl) as (Hmem & _ & _ & _ & _).
  destruct (Hmem ErrNoRows eq_refl) as [[Hincremental _] [HfullState _]].
  destruct (delta_engine_not_found_policy keyOrder memory.joinedStateMissing
              memory.phone memory.window memory.alice None
              {["!room" := "join"]} None eq_refl) as (_ & _ & _ & Hroom & _).
  destruct (Hroom "!room" [] ErrNoRows eq_refl) as (_ & _ & _ & Hjoined).
  split; [apply Hincremental; reflexivity |].
  split; [apply HfullState; reflexivity |].
  apply (Hjoined ["!other"] ∅). reflexivity.
Defined.

(** C7, as stated, fails.  In [joinedThenLeftStateMissing] the lookup
    for the room, asked for by the join at position 5, reports no rows;
    the room is not skipped: the scan goes on to the leave at position
    7 and the classification emits a delta for the room. *)
Lemma delta_engine_not_found_policy_counterexample :
  let join := memory.memberEvent "$join" "!room" "join" "leave" in
  let leave := memory.memberEvent "$leave" "!room" "leave" "join" in
  let evs := [memory.streamed 5 join; memory.streamed 7 leave] in
  let leaveDelta :=
    {| types.RoomID := "!room";
       types.StateEvents := [join; leave];
       types.Membership := "leave";
       types.MembershipPos := 7;
       types.NewlyJoined := false |} in
  tables.SelectCurrentState (CurrentRoomState memory.joinedThenLeftStateMissing)
    (txn memory.joinedThenLeftStateMissing) "!room" None []
  = ([], Some ErrNoRows)
  ∧ joinTransition memory.alice (memory.streamed 5 join)
  ∧ scanRoom memory.joinedThenLeftStateMissing memory.phone memory.alice None
      "!room" evs evs
      {| state_ := {["!room" := evs]}; newlyJoinedRooms := ∅; deltas_ := [] |}
    = inl {| state_ := {["!room" := evs]}; newlyJoinedRooms := ∅;
             deltas_ := [leaveDelta] |}
  ∧ GetStateDeltas keyOrder memory.joinedThenLeftStateMissing memory.phone
      memory.window memory.alice None
    = ([leaveDelta], [], None).
Proof.
  intros join leave evs leaveDelta.
  split; [reflexivity |].
  split; [split; [reflexivity | discriminate] |].
  split; vm_compute; reflexivity.
Qed.

(** * Further properties *)

(** ** Topology *)

(** X1.  Whatever the topology index answers, an error returned by
    [StreamToTopologicalPosition] is wrapped with the name of the lookup
    that failed and comes with the zero token; it is never the bare
    no-rows error, not even when the lookup of the maximum position
    reports no rows.  A token returned without error carries the
    requested stream position, except going forward with no event at the
    cursor, where it is the room's maximum position. *)
Theorem StreamToTopologicalPosition_result_shape
    (d : DatabaseTransaction) (roomID : string)
    (streamPos : types.StreamPosition) (backward : bool)
    (tok : types.TopologyToken) (err : option error) :
  StreamToTopologicalPosition d roomID streamPos backward = (tok, err) ->
  (∀ e, err = Some e ->
     tok = types.zeroToken
     ∧ e ≠ ErrNoRows
     ∧ ∃ cause,
         e = Errorf "d.Topology.SelectMaxPositionInTopology" cause
         ∨ e = Errorf "d.Topology.SelectStreamToTopologicalPosition" cause)
  ∧ (err = None ->
     types.PDUPosition tok = streamPos
     ∨ (backward = false
        ∧ (tables.SelectStreamToTopologicalPosition (Topology d) (txn d)
             roomID streamPos backward).2 = Some ErrNoRows
        ∧ MaxTopologicalPosition d roomID = (tok, None))).
Proof.
  unfold StreamToTopologicalPosition, MaxTopologicalPosition.
  destruct (tables.SelectStreamToTopologicalPosition _ _ _ _ _)
    as [topoPos lookupErr].
  destruct (decide (lookupErr = Some ErrNoRows)) as [-> | Hother].
  - rewrite bool_decide_eq_true_2 by reflexivity.
    destruct backward; simpl.
    + intros [= <- <-]. split; [discriminate | auto].
    + destruct (tables.SelectMaxPositionInTopology _ _ _)
        as [[maxDepth maxPos] [e'|]]; intros [= <- <-].
      * split; [| discriminate].
        intros e [= <-]. split; [reflexivity |]. split; [discriminate |].
        eauto.
      * split; [discriminate |]. intros _. right. auto.
  - rewrite bool_decide_eq_false_2 by exact Hother. simpl.
    destruct lookupErr as [e'|]; intros [= <- <-].
    + split; [| discriminate].
      intros e [= <-]. split; [reflexivity |]. split; [discriminate |].
      eauto.
    + split; [discriminate |]. intros _. left. reflexivity.
Qed.

Lemma StreamToTopologicalPosition_result_shape_witness :
  let d :=
    memory.eventSnapshot
      (memory.topology ([], None) (0, 0, None) (0, 0, Some ErrNoRows)
         (0, Some ErrNoRows))
      (memory.events []) (0, [], None) None in
  StreamToTopologicalPosition d "!room" 1000 false
  = (types.zeroToken,
     Some (Errorf "d.Topology.SelectMaxPositionInTopology" ErrNoRows))
  ∧ Errorf "d.Topology.SelectMaxPositionInTopology" ErrNoRows ≠ ErrNoRows.
Proof.
  intros d. split; [reflexivity |].
  apply (proj1 (StreamToTopologicalPosition_result_shape d "!room" 1000 false
                  types.zeroToken
                  (Some (Errorf "d.Topology.SelectMaxPositionInTopology" ErrNoRows))
                  eq_refl)
           (Errorf "d.Topology.SelectMaxPositionInTopology" ErrNoRows) eq_refl).
Defined.

(** X2.  [GetBackwardTopologyPos] is [EventPositionInTopology] of the
    first event followed by a decrement: it succeeds exactly when that
    lookup does, fails with the same error and the zero token, and never
    looks at the events after the first. *)
Theorem GetBackwardTopologyPos_first_event_position
    (Decrement : types.TopologyToken -> types.TopologyToken)
    (d : DatabaseTransaction) (ev : types.StreamEvent)
    (rest : list types.StreamEvent)
    (tok : types.TopologyToken) (err : option error) :
  EventPositionInTopology d (gomatrixserverlib.EventID (types.HeaderedEvent ev))
  = (tok, err) ->
  GetBackwardTopologyPos Decrement d (ev :: rest)
  = match err with
    | None => (Decrement tok, None)
    | Some e => (types.zeroToken, Some e)
    end
  ∧ GetBackwardTopologyPos Decrement d (ev :: rest)
    = GetBackwardTopologyPos Decrement d [ev].
Proof.
  unfold EventPositionInTopology, GetBackwardTopologyPos.
  destruct (tables.SelectPositionInTopology _ _ _) as [[pos spos] [e|]];
    intros [= <- <-]; split; reflexivity.
Qed.

Lemma GetBackwardTopologyPos_first_event_position_witness :
  let down t :=
    {| types.Depth := types.Depth t - 1; types.PDUPosition := types.PDUPosition t |} in
  let d :=
    memory.eventSnapshot
      (memory.topology ([], None) (4, 12, None) (5, 13, None) (0, None))
      (memory.events []) (0, [], None) None in
  let e12 := memory.streamed 12 (memory.nameEvent "$e12" "!room") in
  let e13 := memory.streamed 13 (memory.nameEvent "$e13" "!room") in
  GetBackwardTopologyPos down d [e12; e13]
  = ({| types.Depth := 3; types.PDUPosition := 12 |}, None)
  ∧ GetBackwardTopologyPos down d [e12; e13] = GetBackwardTopologyPos down d [e12].
Proof.
  intros down d e12 e13.
  apply (GetBackwardTopologyPos_first_event_position down d e12 [e13]
           {| types.Depth := 4; types.PDUPosition := 12 |} None).
  reflexivity.
Defined.

(** ** Unread notification counts *)

Section NotificationCountsProperties.

Variable map_range : forall V : Type, gmap string V -> list (string * V).
Hypothesis map_range_perm :
  forall (V : Type) (m : gmap string V), map_range V m ≡ₚ map_to_list m.

Lemma joinedRoomIDsOf_spec (rooms : gmap string string) :
  joinedRoomIDsOf map_range rooms
  = (filter (fun p => p.2 = gomatrixserverlib.Join) (map_range _ rooms)).*1.
Proof.
  unfold joinedRoomIDsOf.
  assert (∀ l acc,
    fold_left
      (fun roomIDs entry =>
         let '(roomID, membership) := entry in
         if bool_decide (membership ≠ gomatrixserverlib.Join)
         then roomIDs
         else roomIDs ++ [roomID]) l acc
    = acc ++ (filter (fun p : string * string => p.2 = gomatrixserverlib.Join) l).*1)
    as Hgen.
  { induction l as [|[k m] l IH]; intros acc; simpl.
    - rewrite app_nil_r. reflexivity.
    - rewrite IH. case_bool_decide as Hm.
      + rewrite filter_cons_False by exact Hm. reflexivity.
      + rewrite filter_cons_True by exact Hm.
        rewrite <- app_assoc. reflexivity. }
  apply Hgen.
Qed.

(** X3.  The unread counts are asked for the rooms whose membership in
    the given map is join, each exactly once, and for no other room;
    the table's answer is returned as it is. *)
Theorem GetUserUnreadNotificationCountsForRooms_joined_only
    (notificationData : NotificationDataTable) (d : DatabaseTransaction)
    (userID : string) (rooms : gmap string string) :
  ∃ roomIDs,
    GetUserUnreadNotificationCountsForRooms map_range notificationData d
      userID rooms
    = SelectUserUnreadCountsForRooms notificationData (txn d) userID roomIDs
    ∧ NoDup roomIDs
    ∧ ∀ roomID,
        roomID ∈ roomIDs ↔ rooms !! roomID = Some gomatrixserverlib.Join.
Proof.
  exists (joinedRoomIDsOf map_range rooms).
  split; [reflexivity |].
  rewrite joinedRoomIDsOf_spec.
  pose proof (splitMemberships_spec map_range rooms) as Hsplit.
  apply (f_equal snd) in Hsplit. simpl in Hsplit. rewrite <- Hsplit.
  split.
  - apply joined_rooms_NoDup, map_range_perm.
  - intros roomID. apply joined_rooms_spec, map_range_perm.
Qed.

End NotificationCountsProperties.

Lemma GetUserUnreadNotificationCountsForRooms_joined_only_witness :
  ∃ roomIDs,
    GetUserUnreadNotificationCountsForRooms keyOrder memory2.oneUnreadEach
      memory2.busyWindow memory.alice
      {["!a" := "join"; "!b" := "leave"; "!c" := "join"]}
    = (memory2.countsOf roomIDs, None)
    ∧ NoDup roomIDs
    ∧ ∀ roomID,
        roomID ∈ roomIDs
        ↔ ({["!a" := "join"; "!b" := "leave"; "!c" := "join"]}
             : gmap string string) !! roomID
          = Some gomatrixserverlib.Join.
Proof.
  exact (GetUserUnreadNotificationCountsForRooms_joined_only
           keyOrder keyOrder_perm memory2.oneUnreadEach memory2.busyWindow
           memory.alice {["!a" := "join"; "!b" := "leave"; "!c" := "join"]}).
Defined.

(** ** Profile search *)

Lemma scanProfiles_all_scanned (s : sqlite3.profilesStatements)
    (found : list authtypes.Profile) (profiles : list authtypes.Profile) :
  sqlite3.scanProfiles s (inl <$> found) profiles
  = (profiles
     ++ filter (fun p => authtypes.Localpart p ≠ sqlite3.serverNoticesLocalpart s)
          found,
     None).
Proof.
  revert profiles. induction found as [|p found IH]; intros profiles; simpl.
  - rewrite app_nil_r. reflexivity.
  - rewrite IH. case_bool_decide as Hp.
    + rewrite filter_cons_True by exact Hp. rewrite <- app_assoc. reflexivity.
    + rewrite filter_cons_False by (intros Hne; exact (Hne Hp)). reflexivity.
Qed.


(** X4.  When the search statement answers with rows that all scan, the
    search returns them in the order of the rows, leaving out exactly
    the rows of the server-notices localpart; so that localpart never
    occurs in a result.  The statement is queried with the search string
    between two percent signs and with the caller's limit. *)
Theorem SelectProfilesBySearch_hides_server_notices
    (s : sqlite3.profilesStatements) (searchString : string) (limit : Z)
    (found : list authtypes.Profile) :
  sqlite3.selectProfilesBySearchStmt s ("%" +:+ searchString +:+ "%") limit
  = (inl <$> found, None) ->
  sqlite3.SelectProfilesBySearch s searchString limit
  = (filter (fun p => authtypes.Localpart p ≠ sqlite3.serverNoticesLocalpart s)
       found,
     None)
  ∧ Forall (fun p => authtypes.Localpart p ≠ sqlite3.serverNoticesLocalpart s)
      (sqlite3.SelectProfilesBySearch s searchString limit).1.
Proof.
  intros Hquery. unfold sqlite3.SelectProfilesBySearch, sqlite3.likePattern.
  rewrite Hquery, scanProfiles_all_scanned. simpl.
  split; [reflexivity |].
  apply Forall_forall. intros p Hp. apply list_elem_of_filter in Hp as [Hp _].
  exact Hp.
Qed.

Lemma SelectProfilesBySearch_hides_server_notices_witness :
  let rows :=
    [memory2.profile "alice" "Alice"; memory2.profile "_server" "Server Notices";
     memory2.profile "alicia" "Alicia"] in
  sqlite3.SelectProfilesBySearch (memory2.profilesAnswering (inl <$> rows)) "ali" 10
  = ([memory2.profile "alice" "Alice"; memory2.profile "alicia" "Alicia"], None)
  ∧ Forall (fun p => authtypes.Localpart p ≠ "_server")
      (sqlite3.SelectProfilesBySearch
         (memory2.profilesAnswering (inl <$> rows)) "ali" 10).1.
Proof.
  intros rows.
  apply (SelectProfilesBySearch_hides_server_notices
           (memory2.profilesAnswering (inl <$> rows)) "ali" 10 rows).
  reflexivity.
Defined.



(** ** The delta engine, further *)

Section DeltaEngineFurther.

Variable map_range : forall V : Type, gmap string V -> list (string * V).
Hypothesis map_range_perm :
  forall (V : Type) (m : gmap string V), map_range V m ≡ₚ map_to_list m.

Variable d : DatabaseTransaction.
Variable device : userapi.Device.
Variable r : types.Range.
Variable userID : string.
Variable stateFilter : option gomatrixserverlib.StateFilter.

(** X6.  The membership loop splits the map without loss or repetition:
    the rooms handed to the state-in-range query are the keys of the
    membership map, each once; the joined rooms are the keys whose
    membership is join, each once; and the joined rooms come in the
    same relative order as in the list of all rooms. *)
Theorem splitMemberships_partition (memberships : gmap string string) :
  let allRoomIDs := (splitMemberships map_range memberships).1 in
  let joinedRoomIDs := (splitMemberships map_range memberships).2 in
  NoDup allRoomIDs
  ∧ (∀ R, R ∈ allRoomIDs ↔ is_Some (memberships !! R))
  ∧ NoDup joinedRoomIDs
  ∧ (∀ R, R ∈ joinedRoomIDs ↔ memberships !! R = Some gomatrixserverlib.Join)
  ∧ joinedRoomIDs `sublist_of` allRoomIDs.
Proof.
  intros allRoomIDs joinedRoomIDs.
  split; [| split; [| split; [| split]]].
  - subst allRoomIDs. rewrite splitMemberships_spec. simpl.
    apply NoDup_map_range, map_range_perm.
  - intros R. subst allRoomIDs. rewrite splitMemberships_spec. simpl.
    rewrite list_elem_of_fmap. split.
    + intros ([k m] & -> & Hin).
      apply (elem_of_map_range map_range map_range_perm) in Hin. eauto.
    + intros [m Hm]. exists (R, m). split; [reflexivity |].
      apply (elem_of_map_range map_range map_range_perm). exact Hm.
  - apply joined_rooms_NoDup, map_range_perm.
  - intros R. apply joined_rooms_spec, map_range_perm.
  - subst allRoomIDs joinedRoomIDs. rewrite splitMemberships_spec. simpl.
    apply fmap_sublist, sublist_filter.
Qed.

End DeltaEngineFurther.

Lemma splitMemberships_partition_witness :
  let memberships : gmap string string :=
    {["!a" := "join"; "!b" := "leave"; "!c" := "join"]} in
  NoDup (splitMemberships keyOrder memberships).1
  ∧ (∀ R, R ∈ (splitMemberships keyOrder memberships).1
          ↔ is_Some (memberships !! R))
  ∧ NoDup (splitMemberships keyOrder memberships).2
  ∧ (∀ R, R ∈ (splitMemberships keyOrder memberships).2
          ↔ memberships !! R = Some gomatrixserverlib.Join)
  ∧ (splitMemberships keyOrder memberships).2
    `sublist_of` (splitMemberships keyOrder memberships).1.
Proof.
  intros memberships.
  exact (splitMemberships_partition keyOrder keyOrder_perm memberships).
Defined.

Section DeltaEngineShape.

Variable map_range : forall V : Type, gmap string V -> list (string * V).
Variable d : DatabaseTransaction.
Variable device : userapi.Device.
Variable r : types.Range.
Variable userID : string.
Variable stateFilter : option gomatrixserverlib.StateFilter.

Lemma gives_up_shape (e0 : error) (deltas : list types.StateDelta)
    (joined : list string) (e : error) :
  (if bool_decide (e0 = ErrNoRows) then noDeltas else failWith e0)
  = (deltas, joined, Some e) ->
  deltas = [] ∧ joined = [] ∧ e ≠ ErrNoRows.
Proof.
  unfold noDeltas, failWith. case_bool_decide; [discriminate |].
  intros [= <- <- <-]. auto.
Qed.

(** X7.  Incremental sync never hands the no-rows error to its caller,
    whichever lookup reported it, and an error never comes with deltas
    or joined rooms. *)
Theorem GetStateDeltas_error_shape
    (deltas : list types.StateDelta) (joinedRoomIDs : list string) (e : error) :
  GetStateDeltas map_range d device r userID stateFilter
  = (deltas, joinedRoomIDs, Some e) ->
  deltas = [] ∧ joinedRoomIDs = [] ∧ e ≠ ErrNoRows.
Proof.
  unfold GetStateDeltas.
  destruct (tables.SelectRoomIDsWithAnyMembership _ _ _) as [memberships [e0|]];
    [apply gives_up_shape |].
  destruct (splitMemberships map_range memberships) as [allRoomIDs joined].
  destruct (tables.SelectStateInRange _ _ _ _ _) as [[needed emap] [e0|]];
    [apply gives_up_shape |].
  destruct (fetchStateEvents _ _ _ _) as [state [e0|]];
    [apply gives_up_shape |].
  destruct (tables.SelectPeeksInRange _ _ _ _ _) as [peeks [e0|]].
  - destruct (decide (e0 = ErrNoRows)) as [-> | Hne].
    + simpl.
      destruct (addPeekBlocks _ _ _ _ _ _) as [[state1 deltas1] | e1] eqn:Hpeeks.
      * destruct (classifyRooms _ _ _ _ _ _) as [acc | e2] eqn:Hclass;
          [discriminate |].
        intros [= <- <- <-]. split; [reflexivity |]. split; [reflexivity |].
        eapply classifyRooms_error, Hclass.
      * intros [= <- <- <-]. split; [reflexivity |]. split; [reflexivity |].
        eapply addPeekBlocks_error, Hpeeks.
    + rewrite bool_decide_eq_true_2 by discriminate.
      rewrite bool_decide_eq_true_2 by congruence. simpl.
      intros [= <- <- <-]. auto.
  - simpl.
    destruct (addPeekBlocks _ _ _ _ _ _) as [[state1 deltas1] | e1] eqn:Hpeeks.
    + destruct (classifyRooms _ _ _ _ _ _) as [acc | e2] eqn:Hclass;
        [discriminate |].
      intros [= <- <- <-]. split; [reflexivity |]. split; [reflexivity |].
      eapply classifyRooms_error, Hclass.
    + intros [= <- <- <-]. split; [reflexivity |]. split; [reflexivity |].
      eapply addPeekBlocks_error, Hpeeks.
Qed.

(** The ways in which full-state sync can fail. *)
Lemma fullStateSync_failure
    (deltas : list types.StateDelta) (joinedRoomIDs : list string) (e : error) :
  GetStateDeltasForFullStateSync map_range d device r userID stateFilter
  = (deltas, joinedRoomIDs, Some e) ->
  deltas = [] ∧ joinedRoomIDs = [] ∧ e ≠ ErrNoRows.
Proof.
  unfold GetStateDeltasForFullStateSync.
  destruct (tables.SelectRoomIDsWithAnyMembership _ _ _) as [memberships [e0|]];
    [apply gives_up_shape |].
  destruct (splitMemberships map_range memberships) as [allRoomIDs joined].
  assert (∀ peeks,
    match addPeekStates d device stateFilter peeks ∅ with
    | inl deltas1 =>
        let '(stateNeeded, eventMap, err) :=
          tables.SelectStateInRange (OutputEvents d) (txn d) r stateFilter
            allRoomIDs in
        match err with
        | Some e => if bool_decide (e = ErrNoRows) then noDeltas else failWith e
        | None =>
            let '(state, err0) := fetchStateEvents d (txn d) stateNeeded eventMap in
            match err0 with
            | Some e => if bool_decide (e = ErrNoRows) then noDeltas else failWith e
            | None =>
                match
                  addJoinedStates d device stateFilter joined
                    (classifyRoomsFull device userID (map_range _ state) deltas1)
                with
                | inl deltas3 => (flattenDeltas map_range deltas3, joined, None)
                | inr e => failWith e
                end
            end
        end
    | inr e => failWith e
    end = (deltas, joinedRoomIDs, Some e) ->
    deltas = [] ∧ joinedRoomIDs = [] ∧ e ≠ ErrNoRows) as Hrest.
  { intros peeks.
    destruct (addPeekStates _ _ _ _ _) as [deltas1 | e1] eqn:Hpeeks.
    - destruct (tables.SelectStateInRange _ _ _ _ _) as [[needed emap] [e0|]];
        [apply gives_up_shape |].
      destruct (fetchStateEvents _ _ _ _) as [state [e0|]];
        [apply gives_up_shape |].
      destruct (addJoinedStates _ _ _ _ _) as [deltas3 | e3] eqn:Hjoined;
        [discriminate |].
      intros [= <- <- <-]. split; [reflexivity |]. split; [reflexivity |].
      eapply addJoinedStates_error, Hjoined.
    - intros [= <- <- <-]. split; [reflexivity |]. split; [reflexivity |].
      eapply addPeekStates_error, Hpeeks. }
  destruct (tables.SelectPeeksInRange _ _ _ _ _) as [peeks [e0|]].
  - destruct (decide (e0 = ErrNoRows)) as [-> | Hne].
    + simpl. apply Hrest.
    + rewrite bool_decide_eq_true_2 by discriminate.
      rewrite bool_decide_eq_true_2 by congruence. simpl.
      intros [= <- <- <-]. auto.
  - simpl. apply Hrest.
Qed.

(** X8.  Full-state sync never hands the no-rows error to its caller
    either, and an error never comes with deltas or joined rooms. *)
Theorem GetStateDeltasForFullStateSync_error_shape
    (deltas : list types.StateDelta) (joinedRoomIDs : list string) (e : error) :
  GetStateDeltasForFullStateSync map_range d device r userID stateFilter
  = (deltas, joinedRoomIDs, Some e) ->
  deltas = [] ∧ joinedRoomIDs = [] ∧ e ≠ ErrNoRows.
Proof.
  intros Hrun. destruct (fullStateSync_failure _ _ _ Hrun) as (Hdeltas & Hjoined & He).
  split; [exact Hdeltas |]. split; [exact Hjoined | exact He].
Qed.

(** *** What each pass of incremental sync adds *)

Lemma addPeekBlocks_adds (peeks : list types.Peek)
    (state state' : gmap string (list types.StreamEvent))
    (deltas deltas' : list types.StateDelta) :
  addPeekBlocks d device stateFilter peeks state deltas = inl (state', deltas') ->
  ∃ new,
    deltas' = deltas ++ new
    ∧ types.RoomID <$> new
      = types.PeekRoomID
          <$> filter (fun p => types.Deleted p = false
                               ∧ ¬ (types.New p = true
                                    ∧ (currentStateStreamEventsForRoom d
                                         (types.PeekRoomID p) stateFilter).2
                                      = Some ErrNoRows)) peeks
    ∧ Forall (fun δ => types.Membership δ = gomatrixserverlib.Peek
                       ∧ types.MembershipPos δ = 0
                       ∧ types.NewlyJoined δ = false) new.
Proof.
  revert state deltas.
  induction peeks as [|peek rest IH]; intros state deltas Hrun; simpl in Hrun.
  - injection Hrun as <- <-. exists []. rewrite app_nil_r. auto.
  - destruct (types.New peek) eqn:Hnew.
    + destruct (currentStateStreamEventsForRoom d (types.PeekRoomID peek) stateFilter)
        as [s [e|]] eqn:Hcur.
      * case_bool_decide as He; [| discriminate]. subst e.
        apply IH in Hrun as (new & -> & Hrooms & Hall).
        exists new. split; [reflexivity |]. split; [| exact Hall].
        rewrite filter_cons_False; [exact Hrooms |].
        rewrite Hnew, Hcur. simpl. intros [_ Hnot]. apply Hnot. auto.
      * apply IH in Hrun as (new & -> & Hrooms & Hall).
        destruct (types.Deleted peek) eqn:Hdel; simpl.
        -- exists new. split; [reflexivity |]. split; [| exact Hall].
           rewrite filter_cons_False; [exact Hrooms |].
           rewrite Hdel. intros [? _]. discriminate.
        -- eexists (_ :: new). split; [rewrite <- app_assoc; reflexivity |].
           split.
           ++ rewrite filter_cons_True.
              ** rewrite !fmap_cons, Hrooms. reflexivity.
              ** rewrite Hdel, Hcur. simpl. split; [reflexivity |].
                 intros [_ ?]. discriminate.
           ++ apply Forall_cons. split; [| exact Hall]. auto.
    + apply IH in Hrun as (new & -> & Hrooms & Hall).
      destruct (types.Deleted peek) eqn:Hdel; simpl.
      * exists new. split; [reflexivity |]. split; [| exact Hall].
        rewrite filter_cons_False; [exact Hrooms |].
        rewrite Hdel. intros [? _]. discriminate.
      * eexists (_ :: new). split; [rewrite <- app_assoc; reflexivity |].
        split.
        -- rewrite filter_cons_True.
           ++ rewrite !fmap_cons, Hrooms. reflexivity.
           ++ rewrite Hdel, Hnew. split; [reflexivity |].
              intros [? _]. discriminate.
        -- apply Forall_cons. split; [| exact Hall]. auto.
Qed.

End DeltaEngineShape.

Section DeltaEnginePasses.

Variable map_range : forall V : Type, gmap string V -> list (string * V).
Variable d : DatabaseTransaction.
Variable device : userapi.Device.
Variable r : types.Range.
Variable userID : string.
Variable stateFilter : option gomatrixserverlib.StateFilter.

Lemma addPeekBlocks_state (peeks : list types.Peek)
    (state state' : gmap string (list types.StreamEvent))
    (deltas deltas' : list types.StateDelta) (R : string) :
  addPeekBlocks d device stateFilter peeks state deltas = inl (state', deltas') ->
  (∀ p, p ∈ peeks -> types.New p = true -> types.PeekRoomID p ≠ R) ->
  state' !! R = state !! R.
Proof.
  revert state deltas.
  induction peeks as [|peek rest IH]; intros state deltas Hrun Hother;
    simpl in Hrun.
  - injection Hrun as <- <-. reflexivity.
  - assert (∀ p, p ∈ rest -> types.New p = true -> types.PeekRoomID p ≠ R)
      as Hrest by (intros p Hp; apply Hother; right; exact Hp).
    destruct (types.New peek) eqn:Hnew; [| eauto].
    destruct (currentStateStreamEventsForRoom d (types.PeekRoomID peek) stateFilter)
      as [s [e|]].
    + case_bool_decide; [eauto | discriminate].
    + rewrite (IH _ _ Hrun Hrest). apply lookup_insert_ne.
      apply Hother; [left | exact Hnew].
Qed.

(** X9.  The peek pass of incremental sync appends, in the order of the
    peeks, exactly one delta for every peek that is not deleted, except
    a new peek whose current state reports no rows; each of them is a
    peek delta without membership position or newly-joined flag.  A
    deleted peek never yields a delta, and the state of a room is only
    replaced if a new peek names it. *)
Theorem addPeekBlocks_one_delta_per_live_peek (peeks : list types.Peek)
    (state state' : gmap string (list types.StreamEvent))
    (deltas deltas' : list types.StateDelta) :
  addPeekBlocks d device stateFilter peeks state deltas = inl (state', deltas') ->
  (∃ new,
     deltas' = deltas ++ new
     ∧ types.RoomID <$> new
       = types.PeekRoomID
           <$> filter (fun p => types.Deleted p = false
                                ∧ ¬ (types.New p = true
                                     ∧ (currentStateStreamEventsForRoom d
                                          (types.PeekRoomID p) stateFilter).2
                                       = Some ErrNoRows)) peeks
     ∧ Forall (fun δ => types.Membership δ = gomatrixserverlib.Peek
                        ∧ types.MembershipPos δ = 0
                        ∧ types.NewlyJoined δ = false) new)
  ∧ (Forall (fun p => types.Deleted p = true) peeks -> deltas' = deltas)
  ∧ (∀ R, (∀ p, p ∈ peeks -> types.New p = true -> types.PeekRoomID p ≠ R) ->
          state' !! R = state !! R).
Proof.
  intros Hrun. split; [| split].
  - eapply addPeekBlocks_adds, Hrun.
  - intros Hdeleted.
    destruct (addPeekBlocks_adds _ _ _ _ _ _ _ _ Hrun) as (new & -> & Hrooms & _).
    assert (filter (fun p => types.Deleted p = false
                             ∧ ¬ (types.New p = true
                                  ∧ (currentStateStreamEventsForRoom d
                                       (types.PeekRoomID p) stateFilter).2
                                    = Some ErrNoRows)) peeks = []) as Hnone.
    { clear Hrun Hrooms. induction Hdeleted as [|p rest Hp _ IH]; [reflexivity |].
      rewrite filter_cons_False; [exact IH |].
      rewrite Hp. intros [? _]. discriminate. }
    rewrite Hnone in Hrooms. destruct new; [| discriminate].
    apply app_nil_r.
  - intros R. eapply addPeekBlocks_state, Hrun.
Qed.

(** *** The classification pass *)

Lemma scanRoom_adds (R : string)
    (stateStreamEvents evs : list types.StreamEvent) (acc acc' : Classified) :
  scanRoom d device userID stateFilter R stateStreamEvents evs acc = inl acc' ->
  deltas_ acc' = deltas_ acc
  ∨ ∃ δ, deltas_ acc' = deltas_ acc ++ [δ]
         ∧ types.RoomID δ = R
         ∧ types.NewlyJoined δ = false
         ∧ types.StateEvents δ
           = StreamEventsToEvents (Some device) stateStreamEvents.
Proof.
  revert acc. induction evs as [|ev rest IH]; intros acc Hrun; simpl in Hrun.
  - injection Hrun as <-. auto.
  - destruct (getMembershipFromEvent (types.HeaderedEvent ev) userID) as [m p].
    case_bool_decide; [| eauto].
    destruct (bool_decide (m = gomatrixserverlib.Join) && bool_decide (p ≠ m)).
    + destruct (currentStateStreamEventsForRoom d R stateFilter) as [s [e|]].
      * case_bool_decide; [eauto | discriminate].
      * apply IH in Hrun. exact Hrun.
    + injection Hrun as <-. right. eexists. split; [reflexivity |]. auto.
Qed.

Lemma classifyRooms_adds (rooms : list (string * list types.StreamEvent))
    (acc acc' : Classified) :
  classifyRooms d device userID stateFilter rooms acc = inl acc' ->
  ∃ new,
    deltas_ acc' = deltas_ acc ++ new
    ∧ types.RoomID <$> new `sublist_of` rooms.*1
    ∧ Forall (fun δ => types.NewlyJoined δ = false) new.
Proof.
  revert acc. induction rooms as [|[k evs] rest IH]; intros acc Hrun;
    simpl in Hrun.
  - injection Hrun as <-. exists []. rewrite app_nil_r.
    split; [reflexivity |]. split; [apply sublist_nil_l | constructor].
  - destruct (scanRoom d device userID stateFilter k evs evs acc)
      as [acc1 | e] eqn:Hscan; [| discriminate].
    apply IH in Hrun as (new & Hds & Hsub & Hall).
    apply scanRoom_adds in Hscan as [Hsame | (δ & Hone & Hroom & Hflag & _)].
    + exists new. rewrite Hds, Hsame. split; [reflexivity |].
      split; [| exact Hall]. rewrite fmap_cons. apply sublist_cons, Hsub.
    + exists (δ :: new). rewrite Hds, Hone, <- app_assoc.
      split; [reflexivity |]. split.
      * rewrite !fmap_cons. simpl. rewrite Hroom. apply sublist_skip, Hsub.
      * apply Forall_cons. auto.
Qed.

(** X10.  The classification pass of incremental sync only appends
    deltas, at most one per room of [state] and in the order in which
    the rooms are visited; none of them is flagged newly joined.  Over
    distinct rooms it therefore lists no room twice. *)
Theorem classifyRooms_one_delta_per_room
    (rooms : list (string * list types.StreamEvent)) (acc acc' : Classified) :
  classifyRooms d device userID stateFilter rooms acc = inl acc' ->
  ∃ new,
    deltas_ acc' = deltas_ acc ++ new
    ∧ types.RoomID <$> new `sublist_of` rooms.*1
    ∧ Forall (fun δ => types.NewlyJoined δ = false) new
    ∧ (NoDup rooms.*1 -> NoDup (types.RoomID <$> new)).
Proof.
  intros Hrun.
  destruct (classifyRooms_adds _ _ _ Hrun) as (new & Hds & Hsub & Hall).
  exists new. split; [exact Hds |]. split; [exact Hsub |].
  split; [exact Hall |].
  intros Hnd. eapply sublist_NoDup; eassumption.
Qed.

(** A room is only marked newly joined together with its full current
    state. *)
Lemma currentStateStreamEventsForRoom_inv (R : string)
    (s : list types.StreamEvent) :
  currentStateStreamEventsForRoom d R stateFilter = (s, None) ->
  ∃ allState,
    tables.SelectCurrentState (CurrentRoomState d) (txn d) R stateFilter []
    = (allState, None)
    ∧ s = atPositionZero allState.
Proof.
  unfold currentStateStreamEventsForRoom.
  destruct (tables.SelectCurrentState _ _ _ _ _) as [allState [e|]];
    [discriminate |].
  intros [= <-]. eauto.
Qed.

Lemma scanRoom_marks (R : string)
    (stateStreamEvents evs : list types.StreamEvent) (acc acc' : Classified) :
  scanRoom d device userID stateFilter R stateStreamEvents evs acc = inl acc' ->
  (∀ R', newlyJoinedRooms acc !! R' = Some true ->
     ∃ allState,
       tables.SelectCurrentState (CurrentRoomState d) (txn d) R' stateFilter []
       = (allState, None)
       ∧ state_ acc !! R' = Some (atPositionZero allState)) ->
  ∀ R', newlyJoinedRooms acc' !! R' = Some true ->
    ∃ allState,
      tables.SelectCurrentState (CurrentRoomState d) (txn d) R' stateFilter []
      = (allState, None)
      ∧ state_ acc' !! R' = Some (atPositionZero allState).
Proof.
  revert acc. induction evs as [|ev rest IH]; intros acc Hrun Hinv;
    simpl in Hrun.
  - injection Hrun as <-. exact Hinv.
  - destruct (getMembershipFromEvent (types.HeaderedEvent ev) userID) as [m p].
    case_bool_decide; [| eauto].
    destruct (bool_decide (m = gomatrixserverlib.Join) && bool_decide (p ≠ m)).
    + destruct (currentStateStreamEventsForRoom d R stateFilter)
        as [s [e|]] eqn:Hcur.
      * case_bool_decide; [eauto | discriminate].
      * apply (IH _ Hrun). simpl. intros R' Hmark.
        destruct (decide (R = R')) as [<- | Hne].
        -- apply currentStateStreamEventsForRoom_inv in Hcur
             as (allState & Hsel & ->).
           exists allState. split; [exact Hsel |]. apply lookup_insert_eq.
        -- rewrite lookup_insert_ne in Hmark by exact Hne.
           rewrite lookup_insert_ne by exact Hne. apply Hinv, Hmark.
    + injection Hrun as <-. exact Hinv.
Qed.

Lemma classifyRooms_marks (rooms : list (string * list types.StreamEvent))
    (acc acc' : Classified) :
  classifyRooms d device userID stateFilter rooms acc = inl acc' ->
  (∀ R', newlyJoinedRooms acc !! R' = Some true ->
     ∃ allState,
       tables.SelectCurrentState (CurrentRoomState d) (txn d) R' stateFilter []
       = (allState, None)
       ∧ state_ acc !! R' = Some (atPositionZero allState)) ->
  ∀ R', newlyJoinedRooms acc' !! R' = Some true ->
    ∃ allState,
      tables.SelectCurrentState (CurrentRoomState d) (txn d) R' stateFilter []
      = (allState, None)
      ∧ state_ acc' !! R' = Some (atPositionZero allState).
Proof.
  revert acc. induction rooms as [|[k evs] rest IH]; intros acc Hrun Hinv;
    simpl in Hrun.
  - injection Hrun as <-. exact Hinv.
  - destruct (scanRoom d device userID stateFilter k evs evs acc)
      as [acc1 | e] eqn:Hscan; [| discriminate].
    apply (IH _ Hrun). eapply scanRoom_marks; eassumption.
Qed.

(** What a normal return of incremental sync is made of. *)
Lemma GetStateDeltas_returns
    (deltas : list types.StateDelta) (joinedRoomIDs : list string) :
  GetStateDeltas map_range d device r userID stateFilter
  = (deltas, joinedRoomIDs, None) ->
  (deltas = [] ∧ joinedRoomIDs = [])
  ∨ ∃ memberships state peeks peeksErr state1 deltas1 acc,
      tables.SelectRoomIDsWithAnyMembership (CurrentRoomState d) (txn d) userID
      = (memberships, None)
      ∧ tables.SelectPeeksInRange (Peeks d) (txn d) userID (userapi.ID device) r
        = (peeks, peeksErr)
      ∧ addPeekBlocks d device stateFilter peeks state [] = inl (state1, deltas1)
      ∧ classifyRooms d device userID stateFilter (map_range _ state1)
          {| state_ := state1; newlyJoinedRooms := ∅; deltas_ := deltas1 |}
        = inl acc
      ∧ joinedRoomIDs = (splitMemberships map_range memberships).2
      ∧ deltas = deltas_ acc ++ (joinedDelta device acc <$> joinedRoomIDs).
Proof.
  unfold GetStateDeltas.
  assert (gives_up : ∀ e0 : error,
    (if bool_decide (e0 = ErrNoRows) then noDeltas else failWith e0)
    = (deltas, joinedRoomIDs, None) -> deltas = [] ∧ joinedRoomIDs = []).
  { intros e0. unfold noDeltas, failWith. case_bool_decide; [| discriminate].
    intros [= <- <-]. auto. }
  destruct (tables.SelectRoomIDsWithAnyMembership _ _ _)
    as [memberships [e0|]] eqn:Hmem; [left; eauto |].
  destruct (splitMemberships map_range memberships) as [allRoomIDs joined]
    eqn:Hsplit.
  destruct (tables.SelectStateInRange _ _ _ _ _) as [[needed emap] [e0|]];
    [left; eauto |].
  destruct (fetchStateEvents _ _ _ _) as [state [e0|]]; [left; eauto |].
  destruct (tables.SelectPeeksInRange _ _ _ _ _) as [peeks peeksErr] eqn:Hpeeks.
  destruct (bool_decide (peeksErr ≠ None) && bool_decide (peeksErr ≠ Some ErrNoRows)).
  { destruct peeksErr; [discriminate |]. intros [= <- <-]. left. auto. }
  destruct (addPeekBlocks _ _ _ _ _ _) as [[state1 deltas1] | e1] eqn:Hblocks;
    [| discriminate].
  destruct (classifyRooms _ _ _ _ _ _) as [acc | e2] eqn:Hclass; [| discriminate].
  intros [= <- <-]. right.
  exists memberships, state, peeks, peeksErr, state1, deltas1, acc.
  simpl. rewrite addJoinedRooms_spec.
  rewrite Hsplit. repeat split; try reflexivity; assumption.
Qed.

End DeltaEnginePasses.

Section IncrementalResult.

Variable map_range : forall V : Type, gmap string V -> list (string * V).
Variable d : DatabaseTransaction.
Variable device : userapi.Device.
Variable r : types.Range.
Variable userID : string.
Variable stateFilter : option gomatrixserverlib.StateFilter.

(** X11.  In a result of incremental sync the newly-joined flag is only
    ever set on a join delta, without membership position, of a room
    returned as joined, and such a delta always carries the room's full
    current state as the current-state table gives it. *)
Theorem GetStateDeltas_newly_joined_means_full_state
    (deltas : list types.StateDelta) (joinedRoomIDs : list string)
    (δ : types.StateDelta) :
  GetStateDeltas map_range d device r userID stateFilter
  = (deltas, joinedRoomIDs, None) ->
  δ ∈ deltas ->
  types.NewlyJoined δ = true ->
  types.Membership δ = gomatrixserverlib.Join
  ∧ types.MembershipPos δ = 0
  ∧ types.RoomID δ ∈ joinedRoomIDs
  ∧ ∃ allState,
      tables.SelectCurrentState (CurrentRoomState d) (txn d)
        (types.RoomID δ) stateFilter [] = (allState, None)
      ∧ types.StateEvents δ = allState.
Proof.
  intros Hrun Hin Hflag.
  apply GetStateDeltas_returns in Hrun
    as [[-> _] | (memberships & state & peeks & peeksErr & state1 & deltas1 & acc
                  & _ & _ & Hblocks & Hclass & _ & ->)];
    [inversion Hin |].
  destruct (addPeekBlocks_adds _ _ _ _ _ _ _ _ Hblocks) as (new1 & Hd1 & _ & Hnew1).
  destruct (classifyRooms_adds _ _ _ _ _ _ _ Hclass) as (new2 & Hd2 & _ & Hnew2).
  simpl in Hd1, Hd2. rewrite Hd2, Hd1 in Hin.
  rewrite !elem_of_app in Hin. destruct Hin as [[Hin | Hin] | Hin].
  - rewrite Forall_forall in Hnew1. destruct (Hnew1 _ Hin) as (_ & _ & Hoff).
    congruence.
  - rewrite Forall_forall in Hnew2. specialize (Hnew2 _ Hin). congruence.
  - apply list_elem_of_fmap in Hin as (R & -> & HR). simpl in *.
    split; [reflexivity |]. split; [reflexivity |]. split; [exact HR |].
    assert (newlyJoinedRooms acc !! R = Some true) as Hmark.
    { unfold flagAt in Hflag.
      destruct (newlyJoinedRooms acc !! R) as [[|]|]; simpl in Hflag;
        congruence. }
    assert (∀ R', (∅ : gmap string bool) !! R' = Some true ->
              ∃ allState,
                tables.SelectCurrentState (CurrentRoomState d) (txn d) R'
                  stateFilter [] = (allState, None)
                ∧ state1 !! R' = Some (atPositionZero allState)) as Hinit.
    { intros R' Hempty. rewrite lookup_empty in Hempty. discriminate. }
    destruct (classifyRooms_marks _ _ _ _ _ _ _ Hclass Hinit R Hmark)
      as (allState & Hsel & Hstate).
    exists allState. split; [exact Hsel |].
    unfold stateAt. rewrite Hstate. simpl.
    apply StreamEventsToEvents_current_state.
Qed.

Lemma addPeekBlocks_new_peek (peeks : list types.Peek)
    (state state' : gmap string (list types.StreamEvent))
    (deltas deltas' : list types.StateDelta) (peek : types.Peek)
    (allState : list gomatrixserverlib.HeaderedEvent) :
  addPeekBlocks d device stateFilter peeks state deltas = inl (state', deltas') ->
  peek ∈ peeks ->
  types.New peek = true ->
  types.Deleted peek = false ->
  tables.SelectCurrentState (CurrentRoomState d) (txn d)
    (types.PeekRoomID peek) stateFilter [] = (allState, None) ->
  {| types.RoomID := types.PeekRoomID peek;
     types.StateEvents := allState;
     types.Membership := gomatrixserverlib.Peek;
     types.MembershipPos := 0;
     types.NewlyJoined := false |} ∈ deltas'.
Proof.
  intros Hrun Hin Hnew Hlive Hcur. revert state deltas Hrun.
  induction peeks as [|p rest IH]; intros state deltas Hrun; [inversion Hin |].
  apply elem_of_cons in Hin as [<- | Hin].
  - simpl in Hrun. rewrite Hnew, Hlive in Hrun.
    rewrite (currentStateStreamEventsForRoom_ok _ _ _ _ Hcur) in Hrun.
    simpl in Hrun.
    destruct (addPeekBlocks_adds _ _ _ _ _ _ _ _ Hrun) as (new & -> & _).
    apply elem_of_app. left. apply elem_of_app. right.
    unfold peekDelta, stateAt. rewrite lookup_insert_eq. simpl.
    rewrite StreamEventsToEvents_current_state. left.
  - simpl in Hrun. destruct (types.New p).
    + destruct (currentStateStreamEventsForRoom d (types.PeekRoomID p) stateFilter)
        as [s [e|]].
      * case_bool_decide; [eauto | discriminate].
      * eauto.
    + eauto.
Qed.

(** X12.  When incremental sync gets through its queries, every peek of
    the window that is new and not deleted, and whose room's current
    state can be read, has a peek delta in the result that carries that
    full current state. *)
Theorem GetStateDeltas_new_peek_full_state
    (memberships : gmap string string)
    (stateNeeded : gmap string (gmap string bool))
    (eventMap : gmap string types.StreamEvent)
    (state : gmap string (list types.StreamEvent))
    (peeks : list types.Peek) (peeksErr : option error)
    (deltas : list types.StateDelta) (joinedRoomIDs : list string)
    (peek : types.Peek) (allState : list gomatrixserverlib.HeaderedEvent) :
  tables.SelectRoomIDsWithAnyMembership (CurrentRoomState d) (txn d) userID
  = (memberships, None) ->
  tables.SelectStateInRange (OutputEvents d) (txn d) r stateFilter
    (splitMemberships map_range memberships).1
  = (stateNeeded, eventMap, None) ->
  fetchStateEvents d (txn d) stateNeeded eventMap = (state, None) ->
  tables.SelectPeeksInRange (Peeks d) (txn d) userID (userapi.ID device) r
  = (peeks, peeksErr) ->
  GetStateDeltas map_range d device r userID stateFilter
  = (deltas, joinedRoomIDs, None) ->
  peek ∈ peeks ->
  types.New peek = true ->
  types.Deleted peek = false ->
  tables.SelectCurrentState (CurrentRoomState d) (txn d)
    (types.PeekRoomID peek) stateFilter [] = (allState, None) ->
  {| types.RoomID := types.PeekRoomID peek;
     types.StateEvents := allState;
     types.Membership := gomatrixserverlib.Peek;
     types.MembershipPos := 0;
     types.NewlyJoined := false |} ∈ deltas.
Proof.
  intros Hmem Hrange Hfetch Hpeeks Hrun Hin Hnew Hlive Hcur.
  unfold GetStateDeltas in Hrun. rewrite Hmem in Hrun.
  destruct (splitMemberships map_range memberships) as [allRoomIDs joined].
  simpl in Hrange. rewrite Hrange, Hfetch, Hpeeks in Hrun.
  destruct (bool_decide (peeksErr ≠ None) && bool_decide (peeksErr ≠ Some ErrNoRows))
    eqn:Hgate.
  { destruct peeksErr; [discriminate |].
    rewrite bool_decide_eq_false_2 in Hgate by (intros Hne; apply Hne; reflexivity).
    discriminate. }
  destruct (addPeekBlocks _ _ _ _ _ _) as [[state1 deltas1] | e1] eqn:Hblocks;
    [| discriminate].
  destruct (classifyRooms _ _ _ _ _ _) as [acc | e2] eqn:Hclass; [| discriminate].
  injection Hrun as <- <-.
  rewrite addJoinedRooms_spec.
  destruct (classifyRooms_adds _ _ _ _ _ _ _ Hclass) as (new2 & -> & _).
  simpl. apply elem_of_app. left. apply elem_of_app. left.
  eapply addPeekBlocks_new_peek; eassumption.
Qed.

Hypothesis map_range_perm :
  forall (V : Type) (m : gmap string V), map_range V m ≡ₚ map_to_list m.

(** X13.  A result of incremental sync ends with the join deltas of the
    joined rooms it returns: one per room, in the order of that list,
    each with membership join and without membership position.  The
    joined rooms returned are distinct rooms whose latest membership is
    join (and all of them, unless the call gave up with an empty
    result). *)
Theorem GetStateDeltas_joined_rooms_last
    (memberships : gmap string string) (membershipsErr : option error)
    (deltas : list types.StateDelta) (joinedRoomIDs : list string) :
  tables.SelectRoomIDsWithAnyMembership (CurrentRoomState d) (txn d) userID
  = (memberships, membershipsErr) ->
  GetStateDeltas map_range d device r userID stateFilter
  = (deltas, joinedRoomIDs, None) ->
  NoDup joinedRoomIDs
  ∧ (∀ R, R ∈ joinedRoomIDs -> memberships !! R = Some gomatrixserverlib.Join)
  ∧ ((deltas = [] ∧ joinedRoomIDs = [])
     ∨ ∀ R, memberships !! R = Some gomatrixserverlib.Join -> R ∈ joinedRoomIDs)
  ∧ ∃ front tail,
      deltas = front ++ tail
      ∧ types.RoomID <$> tail = joinedRoomIDs
      ∧ Forall (fun δ => types.Membership δ = gomatrixserverlib.Join
                         ∧ types.MembershipPos δ = 0) tail.
Proof.
  intros Hmem Hrun.
  apply GetStateDeltas_returns in Hrun
    as [[-> ->] | (memberships' & state & peeks & peeksErr & state1 & deltas1
                   & acc & Hmem' & _ & _ & _ & -> & ->)].
  - split; [constructor |]. split; [intros R HR; inversion HR |].
    split; [left; auto |]. exists [], []. auto.
  - rewrite Hmem in Hmem'. injection Hmem' as <- ->.
    split; [apply joined_rooms_NoDup, map_range_perm |].
    split; [intros R; apply joined_rooms_spec, map_range_perm |].
    split; [right; intros R; apply joined_rooms_spec, map_range_perm |].
    eexists _, _. split; [reflexivity |]. split.
    + rewrite <- list_fmap_compose.
      induction ((splitMemberships map_range memberships).2) as [|k l IH];
        [reflexivity |].
      rewrite fmap_cons, IH. reflexivity.
    + apply Forall_fmap, Forall_forall. intros k _. simpl. auto.
Qed.

End IncrementalResult.

Section FullStateResult.

Variable map_range : forall V : Type, gmap string V -> list (string * V).
Hypothesis map_range_perm :
  forall (V : Type) (m : gmap string V), map_range V m ≡ₚ map_to_list m.

Variable d : DatabaseTransaction.
Variable device : userapi.Device.
Variable r : types.Range.
Variable userID : string.
Variable stateFilter : option gomatrixserverlib.StateFilter.

(** What a normal return of full-state sync is made of. *)
Lemma GetStateDeltasForFullStateSync_returns
    (deltas : list types.StateDelta) (joinedRoomIDs : list string) :
  GetStateDeltasForFullStateSync map_range d device r userID stateFilter
  = (deltas, joinedRoomIDs, None) ->
  (deltas = [] ∧ joinedRoomIDs = [])
  ∨ ∃ memberships peeks state deltas1 deltas3,
      tables.SelectRoomIDsWithAnyMembership (CurrentRoomState d) (txn d) userID
      = (memberships, None)
      ∧ addPeekStates d device stateFilter peeks ∅ = inl deltas1
      ∧ addJoinedStates d device stateFilter joinedRoomIDs
          (classifyRoomsFull device userID (map_range _ state) deltas1)
        = inl deltas3
      ∧ joinedRoomIDs = (splitMemberships map_range memberships).2
      ∧ deltas = flattenDeltas map_range deltas3.
Proof.
  unfold GetStateDeltasForFullStateSync.
  assert (gives_up : ∀ e0 : error,
    (if bool_decide (e0 = ErrNoRows) then noDeltas else failWith e0)
    = (deltas, joinedRoomIDs, None) -> deltas = [] ∧ joinedRoomIDs = []).
  { intros e0. unfold noDeltas, failWith. case_bool_decide; [| discriminate].
    intros [= <- <-]. auto. }
  destruct (tables.SelectRoomIDsWithAnyMembership _ _ _)
    as [memberships [e0|]] eqn:Hmem; [left; eauto |].
  destruct (splitMemberships map_range memberships) as [allRoomIDs joined]
    eqn:Hsplit.
  destruct (tables.SelectPeeksInRange _ _ _ _ _) as [peeks peeksErr].
  destruct (bool_decide (peeksErr ≠ None) && bool_decide (peeksErr ≠ Some ErrNoRows)).
  { destruct peeksErr; [discriminate |]. intros [= <- <-]. left. auto. }
  destruct (addPeekStates _ _ _ _ _) as [deltas1 | e1] eqn:Hpeeks;
    [| discriminate].
  destruct (tables.SelectStateInRange _ _ _ _ _) as [[needed emap] [e0|]];
    [left; eauto |].
  destruct (fetchStateEvents _ _ _ _) as [state [e0|]]; [left; eauto |].
  destruct (addJoinedStates _ _ _ _ _) as [deltas3 | e3] eqn:Hjoined;
    [| discriminate].
  intros [= <- <-]. right.
  exists memberships, peeks, state, deltas1, deltas3.
  rewrite Hsplit. repeat split; try reflexivity; assumption.
Qed.

(** X14.  Whatever the tables answer, a result of full-state sync lists
    no room twice. *)
Theorem GetStateDeltasForFullStateSync_rooms_distinct :
  NoDup (types.RoomID
           <$> (GetStateDeltasForFullStateSync map_range d device r userID
                  stateFilter).1.1).
Proof.
  destruct (GetStateDeltasForFullStateSync map_range d device r userID stateFilter)
    as [[deltas joinedRoomIDs] [e|]] eqn:Hrun; simpl.
  - apply fullStateSync_failure in Hrun as (-> & _).
    constructor.
  - apply GetStateDeltasForFullStateSync_returns in Hrun
      as [[-> _] | (memberships & peeks & state & deltas1 & deltas3
                    & _ & Hpeeks & Hjoined & _ & ->)]; [constructor |].
    apply flattenDeltas_rooms; [exact map_range_perm |].
    eapply addJoinedStates_keyed; [| exact Hjoined].
    apply classifyRoomsFull_keyed.
    eapply addPeekStates_keyed; [| exact Hpeeks].
    apply map_Forall_empty.
Qed.

(** *** Join deltas of full-state sync *)

Lemma addPeekStates_joins (J : list string) (peeks : list types.Peek)
    (deltas deltas' : gmap string types.StateDelta) :
  map_Forall
    (fun k δ =>
       types.NewlyJoined δ = false
       ∧ (types.Membership δ = gomatrixserverlib.Join ->
          k ∈ J ∧ types.MembershipPos δ = 0
          ∧ ∃ allState,
              tables.SelectCurrentState (CurrentRoomState d) (txn d) k
                stateFilter [] = (allState, None)
              ∧ types.StateEvents δ = allState)) deltas ->
  addPeekStates d device stateFilter peeks deltas = inl deltas' ->
  map_Forall
    (fun k δ =>
       types.NewlyJoined δ = false
       ∧ (types.Membership δ = gomatrixserverlib.Join ->
          k ∈ J ∧ types.MembershipPos δ = 0
          ∧ ∃ allState,
              tables.SelectCurrentState (CurrentRoomState d) (txn d) k
                stateFilter [] = (allState, None)
              ∧ types.StateEvents δ = allState)) deltas'.
Proof.
  revert deltas. induction peeks as [|peek rest IH]; intros deltas Hinv Hrun;
    simpl in Hrun.
  - injection Hrun as <-. exact Hinv.
  - destruct (types.Deleted peek); simpl in Hrun; [eauto |].
    destruct (currentStateStreamEventsForRoom d (types.PeekRoomID peek) stateFilter)
      as [s [e|]].
    + case_bool_decide; [eauto | discriminate].
    + eapply IH; [| exact Hrun]. apply map_Forall_insert_2; [| exact Hinv].
      simpl. split; [reflexivity | discriminate].
Qed.

Lemma classifyRoomsFull_joins (J : list string)
    (rooms : list (string * list types.StreamEvent))
    (deltas : gmap string types.StateDelta) :
  map_Forall
    (fun k δ =>
       types.NewlyJoined δ = false
       ∧ (types.Membership δ = gomatrixserverlib.Join ->
          k ∈ J ∧ types.MembershipPos δ = 0
          ∧ ∃ allState,
              tables.SelectCurrentState (CurrentRoomState d) (txn d) k
                stateFilter [] = (allState, None)
              ∧ types.StateEvents δ = allState)) deltas ->
  map_Forall
    (fun k δ =>
       types.NewlyJoined δ = false
       ∧ (types.Membership δ = gomatrixserverlib.Join ->
          k ∈ J ∧ types.MembershipPos δ = 0
          ∧ ∃ allState,
              tables.SelectCurrentState (CurrentRoomState d) (txn d) k
                stateFilter [] = (allState, None)
              ∧ types.StateEvents δ = allState))
    (classifyRoomsFull device userID rooms deltas).
Proof.
  revert deltas. unfold classifyRoomsFull.
  induction rooms as [|[k evs] rest IH]; intros deltas Hinv; simpl;
    [exact Hinv |].
  apply IH. generalize evs at 1 as all. intros all.
  induction evs as [|ev evs' IHevs]; simpl; [exact Hinv |].
  destruct (getMembershipFromEvent (types.HeaderedEvent ev) userID) as [m p].
  case_bool_decide; [| exact IHevs].
  case_bool_decide as Hm; [| exact Hinv].
  apply map_Forall_insert_2; [| exact Hinv].
  simpl. split; [reflexivity |]. intros Heq. contradiction.
Qed.

Lemma addJoinedStates_joins (J : list string) (joinedRoomIDs : list string)
    (deltas deltas' : gmap string types.StateDelta) :
  joinedRoomIDs ⊆ J ->
  map_Forall
    (fun k δ =>
       types.NewlyJoined δ = false
       ∧ (types.Membership δ = gomatrixserverlib.Join ->
          k ∈ J ∧ types.MembershipPos δ = 0
          ∧ ∃ allState,
              tables.SelectCurrentState (CurrentRoomState d) (txn d) k
                stateFilter [] = (allState, None)
              ∧ types.StateEvents δ = allState)) deltas ->
  addJoinedStates d device stateFilter joinedRoomIDs deltas = inl deltas' ->
  map_Forall
    (fun k δ =>
       types.NewlyJoined δ = false
       ∧ (types.Membership δ = gomatrixserverlib.Join ->
          k ∈ J ∧ types.MembershipPos δ = 0
          ∧ ∃ allState,
              tables.SelectCurrentState (CurrentRoomState d) (txn d) k
                stateFilter [] = (allState, None)
              ∧ types.StateEvents δ = allState)) deltas'.
Proof.
  revert deltas.
  induction joinedRoomIDs as [|k rest IH]; intros deltas Hsub Hinv Hrun;
    simpl in Hrun.
  - injection Hrun as <-. exact Hinv.
  - assert (rest ⊆ J) as Hrest by (intros x Hx; apply Hsub; right; exact Hx).
    destruct (currentStateStreamEventsForRoom d k stateFilter) as [s [e|]] eqn:Hcur.
    + case_bool_decide; [eauto | discriminate].
    + eapply IH; [exact Hrest | | exact Hrun].
      apply map_Forall_insert_2; [| exact Hinv].
      simpl. split; [reflexivity |]. intros _.
      split; [apply Hsub; left |]. split; [reflexivity |].
      unfold currentStateStreamEventsForRoom in Hcur.
      destruct (tables.SelectCurrentState _ _ _ _ _) as [allState [e|]];
        [discriminate |].
      injection Hcur as <-. exists allState. split; [reflexivity |].
      apply StreamEventsToEvents_current_state.
Qed.

(** X15.  Full-state sync never flags a delta as newly joined, and a
    join delta in its result always belongs to a room returned as joined
    and carries no membership position and the room's full current
    state as the current-state table gives it: the classification of
    the window never contributes a join delta. *)
Theorem GetStateDeltasForFullStateSync_join_deltas
    (deltas : list types.StateDelta) (joinedRoomIDs : list string)
    (δ : types.StateDelta) :
  GetStateDeltasForFullStateSync map_range d device r userID stateFilter
  = (deltas, joinedRoomIDs, None) ->
  δ ∈ deltas ->
  types.NewlyJoined δ = false
  ∧ (types.Membership δ = gomatrixserverlib.Join ->
     types.RoomID δ ∈ joinedRoomIDs
     ∧ types.MembershipPos δ = 0
     ∧ ∃ allState,
         tables.SelectCurrentState (CurrentRoomState d) (txn d)
           (types.RoomID δ) stateFilter [] = (allState, None)
         ∧ types.StateEvents δ = allState).
Proof.
  intros Hrun Hin.
  apply GetStateDeltasForFullStateSync_returns in Hrun
    as [[-> _] | (memberships & peeks & state & deltas1 & deltas3
                  & _ & Hpeeks & Hjoined & _ & ->)]; [inversion Hin |].
  unfold flattenDeltas in Hin.
  apply list_elem_of_fmap in Hin as ([k x] & -> & Hin). simpl.
  apply (elem_of_map_range map_range map_range_perm) in Hin.
  assert (types.RoomID x = k) as Hkey.
  { assert (map_Forall (fun k δ => types.RoomID δ = k) deltas3) as Hkeyed.
    { eapply addJoinedStates_keyed; [| exact Hjoined].
      apply classifyRoomsFull_keyed.
      eapply addPeekStates_keyed; [| exact Hpeeks].
      apply map_Forall_empty. }
    exact (Hkeyed k x Hin). }
  rewrite Hkey.
  eapply (addJoinedStates_joins joinedRoomIDs); [| | exact Hjoined | exact Hin].
  - intros R HR. exact HR.
  - apply classifyRoomsFull_joins.
    eapply addPeekStates_joins; [| exact Hpeeks].
    apply map_Forall_empty.
Qed.

End FullStateResult.

(** *** The further properties on concrete snapshots *)

Lemma GetStateDeltas_error_shape_witness :
  GetStateDeltas keyOrder memory2.peeksUnreadable memory.phone memory.window
    memory.alice None
  = ([], [], Some (ErrStorage "peeks unreadable"))
  ∧ ErrStorage "peeks unreadable" ≠ ErrNoRows.
Proof.
  split; [reflexivity |].
  apply (GetStateDeltas_error_shape keyOrder memory2.peeksUnreadable memory.phone
           memory.window memory.alice None [] [] (ErrStorage "peeks unreadable")).
  reflexivity.
Defined.

Lemma GetStateDeltasForFullStateSync_error_shape_witness :
  GetStateDeltasForFullStateSync keyOrder memory2.peeksUnreadable memory.phone
    memory.window memory.alice None
  = ([], [], Some (ErrStorage "peeks unreadable"))
  ∧ ErrStorage "peeks unreadable" ≠ ErrNoRows.
Proof.
  split; [reflexivity |].
  apply (GetStateDeltasForFullStateSync_error_shape keyOrder
           memory2.peeksUnreadable memory.phone memory.window memory.alice None
           [] [] (ErrStorage "peeks unreadable")).
  reflexivity.
Defined.

Lemma addPeekBlocks_one_delta_per_live_peek_witness :
  let peeks :=
    [ {| types.PeekRoomID := "!p"; types.New := true; types.Deleted := false |};
      {| types.PeekRoomID := "!q"; types.New := false; types.Deleted := true |} ] in
  let current := atPositionZero [memory.nameEvent "$name" "!p"] in
  let delta :=
    {| types.RoomID := "!p";
       types.StateEvents := [memory.nameEvent "$name" "!p"];
       types.Membership := gomatrixserverlib.Peek;
       types.MembershipPos := 0;
       types.NewlyJoined := false |} in
  addPeekBlocks memory2.busyWindow memory.phone None peeks ∅ []
  = inl ({["!p" := current]}, [delta])
  ∧ ∃ new,
      [delta] = [] ++ new
      ∧ types.RoomID <$> new
        = types.PeekRoomID
            <$> filter (fun p => types.Deleted p = false
                                 ∧ ¬ (types.New p = true
                                      ∧ (currentStateStreamEventsForRoom
                                           memory2.busyWindow
                                           (types.PeekRoomID p) None).2
                                        = Some ErrNoRows)) peeks
      ∧ Forall (fun δ => types.Membership δ = gomatrixserverlib.Peek
                         ∧ types.MembershipPos δ = 0
                         ∧ types.NewlyJoined δ = false) new.
Proof.
  intros peeks current delta.
  split; [vm_compute; reflexivity |].
  apply (addPeekBlocks_one_delta_per_live_peek memory2.busyWindow memory.phone
           None peeks ∅ {["!p" := current]} [] [delta]).
  vm_compute. reflexivity.
Defined.

Lemma classifyRooms_one_delta_per_room_witness :
  let left_ := memory.memberEvent "$left" "!b" "leave" "join" in
  let rooms :=
    [("!p", atPositionZero [memory.nameEvent "$name" "!p"]);
     ("!b", [memory.streamed 6 left_])] in
  let acc :=
    {| state_ := list_to_map rooms; newlyJoinedRooms := ∅; deltas_ := [] |} in
  let delta :=
    {| types.RoomID := "!b";
       types.StateEvents := [left_];
       types.Membership := "leave";
       types.MembershipPos := 6;
       types.NewlyJoined := false |} in
  ∃ new,
    [delta] = [] ++ new
    ∧ types.RoomID <$> new `sublist_of` ["!p"; "!b"]
    ∧ Forall (fun δ => types.NewlyJoined δ = false) new
    ∧ (NoDup ["!p"; "!b"] -> NoDup (types.RoomID <$> new)).
Proof.
  intros left_ rooms acc delta.
  apply (classifyRooms_one_delta_per_room memory2.busyWindow memory.phone
           memory.alice None rooms acc
           {| state_ := state_ acc; newlyJoinedRooms := ∅; deltas_ := [delta] |}).
  vm_compute. reflexivity.
Defined.

Lemma GetStateDeltas_newly_joined_means_full_state_witness :
  let name := memory.nameEvent "$name" "!room" in
  let join := memory.memberEvent "$join" "!room" "join" "leave" in
  let delta :=
    {| types.RoomID := "!room";
       types.StateEvents := [name; join];
       types.Membership := gomatrixserverlib.Join;
       types.MembershipPos := 0;
       types.NewlyJoined := true |} in
  types.Membership delta = gomatrixserverlib.Join
  ∧ types.MembershipPos delta = 0
  ∧ types.RoomID delta ∈ ["!room"]
  ∧ ∃ allState,
      tables.SelectCurrentState (CurrentRoomState memory.newlyJoined)
        (txn memory.newlyJoined) (types.RoomID delta) None []
      = (allState, None)
      ∧ types.StateEvents delta = allState.
Proof.
  intros name join delta.
  apply (GetStateDeltas_newly_joined_means_full_state keyOrder memory.newlyJoined
           memory.phone memory.window memory.alice None [delta] ["!room"] delta).
  - vm_compute. reflexivity.
  - left.
  - reflexivity.
Defined.

Lemma GetStateDeltas_new_peek_full_state_witness :
  let peek :=
    {| types.PeekRoomID := "!p"; types.New := true; types.Deleted := false |} in
  {| types.RoomID := "!p";
     types.StateEvents := [memory.nameEvent "$name" "!p"];
     types.Membership := gomatrixserverlib.Peek;
     types.MembershipPos := 0;
     types.NewlyJoined := false |}
  ∈ (GetStateDeltas keyOrder memory2.busyWindow memory.phone memory.window
       memory.alice None).1.1.
Proof.
  intros peek.
  apply (GetStateDeltas_new_peek_full_state keyOrder memory2.busyWindow
           memory.phone memory.window memory.alice None
           {["!a" := "join"; "!b" := "leave"; "!c" := "join"]} ∅ ∅
           {["!b" :=
               [memory.streamed 6 (memory.memberEvent "$left" "!b" "leave" "join")]]}
           [peek;
            {| types.PeekRoomID := "!q"; types.New := false; types.Deleted := true |}]
           None
           (GetStateDeltas keyOrder memory2.busyWindow memory.phone memory.window
              memory.alice None).1.1
           (GetStateDeltas keyOrder memory2.busyWindow memory.phone memory.window
              memory.alice None).1.2
           peek [memory.nameEvent "$name" "!p"]).
  - reflexivity.
  - reflexivity.
  - reflexivity.
  - reflexivity.
  - vm_compute. reflexivity.
  - left.
  - reflexivity.
  - reflexivity.
  - reflexivity.
Defined.

Lemma GetStateDeltas_joined_rooms_last_witness :
  let memberships : gmap string string :=
    {["!a" := "join"; "!b" := "leave"; "!c" := "join"]} in
  let result :=
    GetStateDeltas keyOrder memory2.busyWindow memory.phone memory.window
      memory.alice None in
  types.RoomID <$> result.1.1 = ["!p"; "!b"; "!c"; "!a"]
  ∧ result.1.2 = ["!c"; "!a"]
  ∧ NoDup result.1.2
  ∧ (∀ R, R ∈ result.1.2 -> memberships !! R = Some gomatrixserverlib.Join)
  ∧ ((result.1.1 = [] ∧ result.1.2 = [])
     ∨ ∀ R, memberships !! R = Some gomatrixserverlib.Join -> R ∈ result.1.2)
  ∧ ∃ front tail,
      result.1.1 = front ++ tail
      ∧ types.RoomID <$> tail = result.1.2
      ∧ Forall (fun δ => types.Membership δ = gomatrixserverlib.Join
                         ∧ types.MembershipPos δ = 0) tail.
Proof.
  intros memberships result.
  split; [vm_compute; reflexivity |]. split; [vm_compute; reflexivity |].
  apply (GetStateDeltas_joined_rooms_last keyOrder memory2.busyWindow
           memory.phone memory.window memory.alice None keyOrder_perm
           memberships None result.1.1 result.1.2).
  - reflexivity.
  - vm_compute. reflexivity.
Defined.

Lemma GetStateDeltasForFullStateSync_rooms_distinct_witness :
  types.RoomID
    <$> (GetStateDeltasForFullStateSync keyOrder memory2.busyWindow memory.phone
           memory.window memory.alice None).1.1
  = ["!c"; "!a"; "!b"; "!p"]
  ∧ NoDup (types.RoomID
             <$> (GetStateDeltasForFullStateSync keyOrder memory2.busyWindow
                    memory.phone memory.window memory.alice None).1.1).
Proof.
  split; [vm_compute; reflexivity |].
  exact (GetStateDeltasForFullStateSync_rooms_distinct keyOrder keyOrder_perm
           memory2.busyWindow memory.phone memory.window memory.alice None).
Defined.

Lemma GetStateDeltasForFullStateSync_join_deltas_witness :
  let delta :=
    {| types.RoomID := "!a";
       types.StateEvents := [memory.nameEvent "$name" "!a"];
       types.Membership := gomatrixserverlib.Join;
       types.MembershipPos := 0;
       types.NewlyJoined := false |} in
  let result :=
    GetStateDeltasForFullStateSync keyOrder memory2.busyWindow memory.phone
      memory.window memory.alice None in
  delta ∈ result.1.1
  ∧ types.NewlyJoined delta = false
  ∧ (types.Membership delta = gomatrixserverlib.Join ->
     types.RoomID delta ∈ result.1.2
     ∧ types.MembershipPos delta = 0
     ∧ ∃ allState,
         tables.SelectCurrentState (CurrentRoomState memory2.busyWindow)
           (txn memory2.busyWindow) (types.RoomID delta) None []
         = (allState, None)
         ∧ types.StateEvents delta = allState).
Proof.
  intros delta result.
  assert (delta ∈ result.1.1) as Hin.
  { vm_compute. right. left. }
  split; [exact Hin |].
  apply (GetStateDeltasForFullStateSync_join_deltas keyOrder keyOrder_perm
           memory2.busyWindow memory.phone memory.window memory.alice None
           result.1.1 result.1.2 delta).
  - vm_compute. reflexivity.
  - exact Hin.
Defined.


